(** * dbot: process and observation models of the depth-based object tracker

    A shallow embedding of

    - [PixelObservationModel] and [DepthObservationModel]
      (pose_tracking_interface/trackers/dev_test_tracker/depth_observation_model.hpp),
    - [ContinuousOcclusionProcessModel]
      (dbot/models/process_models/continuous_occlusion_process_model.hpp),
    - [BrownianObjectMotionModel]
      (dbot/models/process_models/brownian_object_motion_model.hpp),

    together with the properties of their [condition], [map_standard_normal]
    and [predict_observation] members.

    The C++ scalar type is [double].  The models only combine scalars with
    [+], [-], [*], [std::sqrt], [std::exp], [==] and [std::isnan], so the
    development is parametric in an interface [Arith] offering exactly
    these operations and assumes no algebraic law about them: what is proved
    holds for IEEE-754 binary64 with its NaN, infinities and signed zeros.
    The instance [Double.arith] interprets the interface with Rocq's
    primitive binary64 floats and is used to run the models on concrete
    inputs. *)

From Stdlib Require Import ZArith String PrimFloat Uint63.
From Stdlib Require SpecFloat FloatOps.
From stdpp Require Import base option list.

Set Default Proof Using "Type".

(** ** Scalars *)

(** The operations the models apply to a [Scalar] ([double] in every
    instantiation of the templates in the repository). *)
Class Arith (Scalar : Type) : Type := {
  zero : Scalar;
  one : Scalar;
  add : Scalar -> Scalar -> Scalar;
  sub : Scalar -> Scalar -> Scalar;
  mul : Scalar -> Scalar -> Scalar;
  sqrt : Scalar -> Scalar;            (* std::sqrt *)
  exp : Scalar -> Scalar;             (* std::exp *)
  equal : Scalar -> Scalar -> bool;   (* operator== *)
  isnan : Scalar -> bool;             (* std::isnan *)
}.

(** The renderer fills a [std::vector<float>]; a [Float] is one of its
    entries.  [convert] tests it with [std::isinf], replaces it by the
    literal [7] and converts the result to [Scalar]. *)
Class Float32 (Scalar Float : Type) : Type := {
  isinf : Float -> bool;              (* std::isinf *)
  seven : Float;                      (* the literal 7 as a float *)
  to_scalar : Float -> Scalar;        (* float to double *)
}.

(** ** Pixel observation model *)

Module Pixel.
Section Model.
  Context {Scalar : Type} `{Arith Scalar}.

(** [Traits<PixelObservationModel>]: [State] and [Observation] are 2x1
    matrices, [Noise] and the second moment are 1x1. *)
Definition State : Type := Scalar * Scalar.
Definition Noise : Type := Scalar.
Definition Observation : Type := Scalar * Scalar.
Definition SecondMoment : Type := Scalar.

(** The only data member is the covariance of the [Gaussian<Noise>] base. *)
Record PixelObservationModel : Type := {
  covariance : SecondMoment;
}.

(** [PixelObservationModel(noise_covariance)] *)
Definition new (noise_covariance : SecondMoment) : PixelObservationModel :=
  {| covariance := noise_covariance |}.

(** [predict_observation(state, noise, delta_time)]: the model is read,
    never written. *)
Definition predict_observation (m : PixelObservationModel)
    (state : State) (noise : Noise) (delta_time : Scalar) : Observation :=
  let y0 := add (fst state) (mul (mul (exp (snd state)) (covariance m)) noise) in
  let y1 := mul y0 y0 in
  (y0, y1).

(** [PixelCov::Identity() * s] for the 1x1 matrix type [PixelCov]. *)
Definition identity_times (s : Scalar) : SecondMoment := mul one s.

End Model.
End Pixel.

(** ** Depth observation model *)

(** Collaborators of the depth model that are not among the sources. *)

(** [VectorHash<Eigen::MatrixXd>] (vector_hashing.hpp), the hash function of
    the prediction cache. *)
Class Hashing (Scalar : Type) : Type := {
  VectorHash : list Scalar -> Z;
}.

(** [fl::RigidBodyRenderer]: what [Render] writes into the depth image for
    a backing scene and the poses last handed over with [state]. *)
Class Rendering (Scalar Float Scene : Type) : Type := {
  render_image : Scene -> list Scalar -> list Float;
  fzero : Float;                      (* value of a resized vector entry *)
}.

Module Depth.
Section Model.
  Context {Scalar Float Scene : Type}.
  Context `{Arith Scalar} `{Float32 Scalar Float} `{Hashing Scalar}
          `{Rendering Scalar Float Scene}.

(** Dynamic Eigen column vectors are lists of their coefficients. *)
Definition Vector : Type := list Scalar.

(** [v.topRows(n)]: Eigen asserts that the block lies inside the vector;
    [None] stands for the failed assertion. *)
Definition topRows (n : nat) (v : Vector) : option Vector :=
  if decide (n <= length v)%nat then Some (take n v) else None.

(** *** FactorizedIIDObservationModel *)

(** Modelled from the spec: fl's [FactorizedIIDObservationModel] is not
    among the sources.  Section 4.4: the depth model "aggregates the Pixel
    Observation Model independently across every pixel", every pixel
    owning two entries of the latent vector, one entry of the noise vector
    and two entries of the observation. *)
Record Factorized : Type := {
  local_obsrv_model : Pixel.PixelObservationModel (Scalar := Scalar);
  count_local_models : nat;
}.

Fixpoint predict_pixels (local : Pixel.PixelObservationModel)
    (count i : nat) (state noise : Vector) (delta_time : Scalar)
    : option Vector :=
  match count with
  | O => Some []
  | S count' =>
      depth ← state !! (2 * i)%nat;
      feature ← state !! (2 * i + 1)%nat;
      n ← noise !! i;
      rest ← predict_pixels local count' (S i) state noise delta_time;
      let y := Pixel.predict_observation local (depth, feature) n delta_time in
      Some (fst y :: snd y :: rest)
  end.

Definition camera_predict_observation (camera : Factorized)
    (state noise : Vector) (delta_time : Scalar) : option Vector :=
  predict_pixels (local_obsrv_model camera) (count_local_models camera) 0
                 state noise delta_time.

(** *** The prediction cache *)

(** [std::unordered_map<Eigen::MatrixXd, StateInternal, VectorHash<...>>]
    with the default key equality [std::equal_to], that is Eigen's
    [operator==]: coefficient-wise [==] on matrices of the same size.
    Keys are not a type with decidable Leibniz equality that the map could
    be indexed by: [==] is not reflexive on [double] (NaN) and identifies
    distinct values ([0.0] and [-0.0]).  The cache is therefore kept as the
    list of its entries in insertion order, and a probe matches a stored
    key when both hash alike and compare equal. *)
Definition Cache : Type := list (Vector * Vector).

Fixpoint matrix_equal (a b : Vector) : bool :=
  match a, b with
  | [], [] => true
  | x :: a', y :: b' => equal x y && matrix_equal a' b'
  | _, _ => false
  end.

Definition key_match (probe key : Vector) : bool :=
  (VectorHash probe =? VectorHash key)%Z && matrix_equal probe key.

(** [predictions_cache_.find(pose)]: position of the matching entry,
    [None] for [end()]. *)
Fixpoint cache_find (pose : Vector) (c : Cache) : option nat :=
  match c with
  | [] => None
  | (key, _) :: c' =>
      if key_match pose key then Some O else S <$> cache_find pose c'
  end.

(** *** The model and the renderer it shares *)

Record DepthObservationModel : Type := {
  camera_obsrv_model_ : Factorized;
  model_sigma_ : Scalar;
  camera_sigma_ : Scalar;
  depth_rendering_ : list Float;
  state_dimension_ : nat;
  pose_state_dimension_ : nat;
  predictions_cache_ : Cache;
}.

(** The renderer behind the [std::shared_ptr]: its backing scene, the
    poses it was last given, and the number of [Render] calls so far (a
    counter kept for the statements about re-rendering). *)
Record Renderer : Type := {
  scene : Scene;
  renderer_state : Vector;
  render_calls : nat;
}.

(** The objects a member function of the model can reach. *)
Record World : Type := {
  this : DepthObservationModel;
  renderer_ : Renderer;
}.

Definition set_cache (c : Cache) (m : DepthObservationModel) :=
  {| camera_obsrv_model_ := camera_obsrv_model_ m;
     model_sigma_ := model_sigma_ m;
     camera_sigma_ := camera_sigma_ m;
     depth_rendering_ := depth_rendering_ m;
     state_dimension_ := state_dimension_ m;
     pose_state_dimension_ := pose_state_dimension_ m;
     predictions_cache_ := c |}.

Definition set_depth_rendering (d : list Float) (m : DepthObservationModel) :=
  {| camera_obsrv_model_ := camera_obsrv_model_ m;
     model_sigma_ := model_sigma_ m;
     camera_sigma_ := camera_sigma_ m;
     depth_rendering_ := d;
     state_dimension_ := state_dimension_ m;
     pose_state_dimension_ := pose_state_dimension_ m;
     predictions_cache_ := predictions_cache_ m |}.

(** The scene is owned by whoever else holds the renderer; it can change
    between two calls of the model. *)
Definition set_scene (s : Scene) (w : World) : World :=
  {| this := this w;
     renderer_ := {| scene := s;
                     renderer_state := renderer_state (renderer_ w);
                     render_calls := render_calls (renderer_ w) |} |}.

(** The world with another cache, and the world once the renderer was given
    [poses] and has rendered into [depth_rendering_]. *)
Definition with_cache (c : Cache) (w : World) : World :=
  {| this := set_cache c (this w); renderer_ := renderer_ w |}.

Definition after_render (poses : Vector) (w : World) : World :=
  {| this := set_depth_rendering
               (render_image (scene (renderer_ w)) poses) (this w);
     renderer_ := {| scene := scene (renderer_ w);
                     renderer_state := poses;
                     render_calls := S (render_calls (renderer_ w)) |} |}.

(** Member functions run in a world and either return a value or stop at
    a failed assertion ([None]); the world is the one reached so far. *)
Definition M (A : Type) : Type := World -> option A * World.

Definition ret {A} (a : A) : M A := fun w => (Some a, w).

Definition bind {A B} (c : M A) (k : A -> M B) : M B :=
  fun w => match c w with
           | (Some a, w') => k a w'
           | (None, w') => (None, w')
           end.

Definition lift {A} (o : option A) : M A := fun w => (o, w).

Definition get_model : M DepthObservationModel := fun w => (Some (this w), w).

Definition put_model (m : DepthObservationModel) : M unit :=
  fun w => (Some tt, {| this := m; renderer_ := renderer_ w |}).

Notation "'let*' x ':=' c 'in' k" := (bind c (fun x => k))
  (at level 10, x name, c at level 100, k at level 200, only parsing).

(** [renderer_->state(poses)] *)
Definition renderer_set_state (poses : Vector) : M unit :=
  fun w => (Some tt,
            {| this := this w;
               renderer_ := {| scene := scene (renderer_ w);
                               renderer_state := poses;
                               render_calls := render_calls (renderer_ w) |} |}).

(** [renderer_->Render(depth_rendering_)] *)
Definition renderer_Render : M unit :=
  fun w =>
    let r := renderer_ w in
    (Some tt,
     {| this := set_depth_rendering
                  (render_image (scene r) (renderer_state r)) (this w);
        renderer_ := {| scene := scene r;
                        renderer_state := renderer_state r;
                        render_calls := S (render_calls r) |} |}).

(** [predictions_cache_[pose]]: the entry of [pose], inserted with a
    default-constructed (empty) [StateInternal] when [find] fails.  The
    reference returned is the position of the entry. *)
Definition cache_subscript (pose : Vector) : M nat :=
  let* m := get_model in
  match cache_find pose (predictions_cache_ m) with
  | Some i => ret i
  | None =>
      let* u := put_model (set_cache (predictions_cache_ m ++ [(pose, [])]) m) in
      ret (length (predictions_cache_ m))
  end.

(** Reading and assigning through such a reference. *)
Definition read_entry (i : nat) : M Vector :=
  let* m := get_model in
  lift (snd <$> predictions_cache_ m !! i).

Definition write_entry (i : nat) (v : Vector) : M unit :=
  let* m := get_model in
  put_model (set_cache (alter (fun e => (fst e, v)) i (predictions_cache_ m)) m).

(** The loop of [convert]: pixel [i] takes its depth from the rendering
    ([7] where the renderer reported no surface) and its occlusion feature
    from row [pose_state_dimension_ + i] of the state. *)
Definition depth_value (d : Float) : Scalar :=
  to_scalar (if isinf d then seven else d).

Fixpoint convert_from (pose_state_dimension i : nat)
    (depth : list Float) (state : Vector) : option Vector :=
  match depth with
  | [] => Some []
  | d :: depth' =>
      feature ← state !! (pose_state_dimension + i)%nat;
      rest ← convert_from pose_state_dimension (S i) depth' state;
      Some (depth_value d :: feature :: rest)
  end.

(** [convert(depth, state, state_internal)], [state_internal] being the
    cache entry at position [entry]. *)
Definition convert (depth : list Float) (state : Vector) (entry : nat) : M unit :=
  let* m := get_model in
  let* internal := lift (convert_from (pose_state_dimension_ m) 0 depth state) in
  write_entry entry internal.

(** [map(state, state_internal)] *)
Definition map (state : Vector) (entry : nat) : M unit :=
  let* m := get_model in
  let* poses := lift (topRows (pose_state_dimension_ m) state) in
  let* u := renderer_set_state poses in
  let* u := renderer_Render in
  let* m' := get_model in
  convert (depth_rendering_ m') state entry.

(** [predict_observation(state, noise, delta_time)] *)
Definition predict_observation (state noise : Vector) (delta_time : Scalar)
    : M Vector :=
  let* pose := lift (topRows 6 state) in
  let* m := get_model in
  let* u := match cache_find pose (predictions_cache_ m) with
            | None => let* entry := cache_subscript pose in map state entry
            | Some _ => ret tt
            end in
  let* entry := cache_subscript pose in
  let* internal := read_entry entry in
  let* m' := get_model in
  lift (camera_predict_observation (camera_obsrv_model_ m') internal noise delta_time).

(** [clear_cache()] *)
Definition clear_cache : M unit :=
  let* m := get_model in
  put_model (set_cache [] m).

(** [res_rows * res_cols] on [int], which has 32 bits.  A product that
    does not fit is undefined in C++; the programs the compilers at hand
    produce keep its low 32 bits, read in two's complement. *)
Definition int_mul (a b : Z) : Z :=
  ((a * b + 2 ^ 31) mod 2 ^ 32 - 2 ^ 31)%Z.

(** The constructor.  The three [assert]s stop the program when they
    fail; [renderer] is the object the shared pointer refers to.  The pixel
    count is the [int] product [res_rows * res_cols], converted to [size_t]
    where it is used: [resize] throws for a negative product, which the
    conversion turns into a size beyond [max_size()], and then no model is
    constructed. *)
Definition new (renderer : Renderer) (camera_sigma model_sigma : Scalar)
    (pose_state_dimension state_dimension : nat) (res_rows res_cols : Z)
    : option World :=
  let pixels := int_mul res_rows res_cols in
  if decide ((0 < res_rows)%Z /\ (0 < res_cols)%Z /\ (0 < state_dimension)%nat) then
    if decide (0 <= pixels)%Z then
      Some
        {| this :=
             {| camera_obsrv_model_ :=
                  {| local_obsrv_model :=
                       Pixel.new (Pixel.identity_times
                                    (add (mul camera_sigma camera_sigma)
                                         (mul model_sigma model_sigma)));
                     count_local_models := Z.to_nat pixels |};
                model_sigma_ := model_sigma;
                camera_sigma_ := camera_sigma;
                depth_rendering_ := replicate (Z.to_nat pixels) fzero;
                state_dimension_ := state_dimension;
                pose_state_dimension_ := pose_state_dimension;
                predictions_cache_ := [] |};
           renderer_ := renderer |}
    else None
  else None.

End Model.
End Depth.

(** ** Continuous occlusion process model *)

(** Collaborators of the occlusion model.  [fl::sigmoid], [fl::logit] and
    [fl::TruncatedGaussian] belong to the filtering library;
    [OcclusionProcessModel] (occlusion_process_model.hpp) is the type of the
    member [mean_]. *)
Class Occlusion (Scalar Generator : Type) : Type := {
  sigmoid : Scalar -> Scalar;
  logit : Scalar -> Scalar;
  (* TruncatedGaussian::map_standard_normal for given mean, sigma, min, max *)
  truncated_map_standard_normal :
    Scalar -> Scalar -> Scalar -> Scalar -> Scalar -> Scalar;
  (* OcclusionProcessModel::sample for given transition probabilities,
     elapsed time and occlusion probability: the sample drawn and the state
     the random source is left in *)
  mixing_sample :
    Scalar -> Scalar -> Scalar -> Scalar -> Generator -> Scalar * Generator;
}.

Module ContinuousOcclusion.
Section Model.
  Context {Scalar Generator : Type}.
  Context `{Arith Scalar} `{Occlusion Scalar Generator}.

(** [Traits<ContinuousOcclusionProcessModel>]: [State] and [Noise] are 1x1
    matrices, [Input] is empty. *)
Definition State : Type := Scalar.
Definition Noise : Type := Scalar.

(** Modelled from the spec: [OcclusionProcessModel] is not among the
    sources.  Section 4.3: "a two-state continuous-time mixing model
    (parameterized by "visible->occluded" and "occluded->occluded"
    transition probabilities)" that is fed a probability and the elapsed
    time, and from which [condition] "draws one sample". *)
Record OcclusionProcessModel : Type := {
  p_occluded_visible : Scalar;
  p_occluded_occluded : Scalar;
  mixing_delta_time : Scalar;
  mixing_probability : Scalar;
}.

Definition mean_condition (mean : OcclusionProcessModel)
    (delta_time occlusion_probability : Scalar) : OcclusionProcessModel :=
  {| p_occluded_visible := p_occluded_visible mean;
     p_occluded_occluded := p_occluded_occluded mean;
     mixing_delta_time := delta_time;
     mixing_probability := occlusion_probability |}.

Definition mean_sample (mean : OcclusionProcessModel) (g : Generator)
    : Scalar * Generator :=
  mixing_sample (p_occluded_visible mean) (p_occluded_occluded mean)
                (mixing_delta_time mean) (mixing_probability mean) g.


(** [fl::TruncatedGaussian] with the four values [parameters] sets. *)
Record TruncatedGaussian : Type := {
  tg_mean : Scalar;
  tg_sigma : Scalar;
  tg_min : Scalar;
  tg_max : Scalar;
}.

Definition tg_map_standard_normal (t : TruncatedGaussian) (x : Scalar) : Scalar :=
  truncated_map_standard_normal (tg_mean t) (tg_sigma t) (tg_min t) (tg_max t) x.

Record ContinuousOcclusionProcessModel : Type := {
  mean_ : OcclusionProcessModel;
  truncated_gaussian_ : TruncatedGaussian;
  sigma_ : Scalar;
}.

(** What is sent to [std::cout]. *)
Inductive Printed : Type :=
| Text (s : string)
| Number (x : Scalar)
| Endl.

(** A member function either returns to its caller or ends the process
    with [exit(status)]. *)
Inductive Outcome (A : Type) : Type :=
| Returned (a : A)
| Exited (status : Z).
Global Arguments Returned {A} a.
Global Arguments Exited {A} status.

(** A run: what was printed, the state of the random source afterwards,
    and how the call ended. *)
Record Run (A : Type) : Type := {
  stdout : list Printed;
  generator : Generator;
  outcome : Outcome A;
}.
Global Arguments stdout {A} r.
Global Arguments generator {A} r.
Global Arguments outcome {A} r.

(** [condition(delta_time, occlusion, input)]; on return the outcome
    carries the model with its new members. *)
Definition condition (m : ContinuousOcclusionProcessModel)
    (delta_time : Scalar) (occlusion : State) (g : Generator)
    : Run ContinuousOcclusionProcessModel :=
  if isnan occlusion then
    {| stdout := [Text "error: received nan occlusion in process model"; Endl];
       generator := g;
       outcome := Exited (-1) |}
  else
    let initial_occlusion_probability := sigmoid occlusion in
    let mean' := mean_condition (mean_ m) delta_time initial_occlusion_probability in
    let (mean, g') := mean_sample mean' g in
    if isnan mean then
      {| stdout := [Text "error: produced nan mean in process model"; Endl;
                    Text "delta_time "; Number delta_time; Endl;
                    Text "initial_occlusion_probability ";
                    Number initial_occlusion_probability; Endl];
         generator := g';
         outcome := Exited (-1) |}
    else
      {| stdout := [];
         generator := g';
         outcome :=
           Returned
             {| mean_ := mean';
                truncated_gaussian_ :=
                  {| tg_mean := mean;
                     tg_sigma := mul (sigma_ m) (sqrt delta_time);
                     tg_min := zero;
                     tg_max := one |};
                sigma_ := sigma_ m |} |}.

(** [map_standard_normal(sample)], a [const] member: it reads the
    truncated Gaussian and draws nothing. *)
Definition map_standard_normal (m : ContinuousOcclusionProcessModel)
    (sample : Noise) (g : Generator) : Run State :=
  let l := logit (tg_map_standard_normal (truncated_gaussian_ m) sample) in
  if isnan l then
    {| stdout := [Text "error: produced nan occlusion in process model"; Endl];
       generator := g;
       outcome := Exited (-1) |}
  else
    {| stdout := []; generator := g; outcome := Returned l |}.

(** [predict_state(delta_time, state, noise, input)] *)
Definition predict_state (m : ContinuousOcclusionProcessModel)
    (delta_time : Scalar) (state : State) (noise : Noise) (g : Generator)
    : Run (ContinuousOcclusionProcessModel * State) :=
  let c := condition m delta_time state g in
  match outcome c with
  | Exited status =>
      {| stdout := stdout c; generator := generator c; outcome := Exited status |}
  | Returned m' =>
      let r := map_standard_normal m' noise (generator c) in
      {| stdout := stdout c ++ stdout r;
         generator := generator r;
         outcome := match outcome r with
                    | Returned l => Returned (m', l)
                    | Exited status => Exited status
                    end |}
  end.

(** The constructor.  It initialises the transition probabilities and
    [sigma_]; [mixing0] and [tg0] stand for what the members set by
    [condition] hold until then. *)
Definition new (p_occluded_visible p_occluded_occluded sigma : Scalar)
    (mixing0 : Scalar) (tg0 : TruncatedGaussian)
    : ContinuousOcclusionProcessModel :=
  {| mean_ := {| p_occluded_visible := p_occluded_visible;
                 p_occluded_occluded := p_occluded_occluded;
                 mixing_delta_time := mixing0;
                 mixing_probability := mixing0 |};
     truncated_gaussian_ := tg0;
     sigma_ := sigma |}.

End Model.
End ContinuousOcclusion.

(** ** Brownian object motion model *)

(** Fixed-size Eigen vectors: 3x1 vectors and the coefficients [(x, y, z, w)]
    of a quaternion. *)
Record Vector3 (Scalar : Type) : Type := vector3 {
  v0 : Scalar; v1 : Scalar; v2 : Scalar;
}.
Arguments vector3 {Scalar} _ _ _.
Arguments v0 {Scalar} _.
Arguments v1 {Scalar} _.
Arguments v2 {Scalar} _.

Record Coeffs (Scalar : Type) : Type := coeffs {
  qx : Scalar; qy : Scalar; qz : Scalar; qw : Scalar;
}.
Arguments coeffs {Scalar} _ _ _ _.
Arguments qx {Scalar} _.
Arguments qy {Scalar} _.
Arguments qz {Scalar} _.
Arguments qw {Scalar} _.

(** Eigen and fl routines on small matrices.  The order in which Eigen adds
    up the terms of a matrix-vector product is its own business, so the
    products are collaborators rather than formulas over [Arith]. *)
Class Geometry (Scalar Matrix33 Matrix43 : Type) : Type := {
  (* Eigen::Quaternion::toRotationMatrix, behind State::rotation_matrix(i) *)
  rotation_matrix : Coeffs Scalar -> Matrix33;
  (* fl::quaternion_matrix *)
  quaternion_matrix : Coeffs Scalar -> Matrix43;
  (* operator* of a 3x3 and of a 4x3 matrix with a 3x1 vector *)
  mul33 : Matrix33 -> Vector3 Scalar -> Vector3 Scalar;
  mul43 : Matrix43 -> Vector3 Scalar -> Coeffs Scalar;
  (* Eigen::Quaternion::normalized *)
  normalized : Coeffs Scalar -> Coeffs Scalar;
}.

(** [fl::IntegratedDampedWienerProcessModel<ObjectState>], the stochastic
    integrator.  Its 6x1 vectors are given as their top and bottom three
    rows. *)
Class Integrator (Scalar Process Moment : Type) : Type := {
  process_condition :
    Process -> Scalar -> Vector3 Scalar * Vector3 Scalar -> Vector3 Scalar -> Process;
  process_map_standard_normal :
    Process -> Vector3 Scalar -> Vector3 Scalar * Vector3 Scalar;
  process_parameters : Process -> Scalar -> Moment -> Process;
}.

Module Brownian.
Section Model.
  Context {Scalar Matrix33 Matrix43 Process Moment : Type}.
  Context `{Arith Scalar} `{Geometry Scalar Matrix33 Matrix43}
          `{Integrator Scalar Process Moment}.

Definition zero3 : Vector3 Scalar := vector3 zero zero zero.

(** Coefficient-wise [+] and [-], and Eigen's [cross]. *)
Definition vadd (a b : Vector3 Scalar) : Vector3 Scalar :=
  vector3 (add (v0 a) (v0 b)) (add (v1 a) (v1 b)) (add (v2 a) (v2 b)).

Definition vsub (a b : Vector3 Scalar) : Vector3 Scalar :=
  vector3 (sub (v0 a) (v0 b)) (sub (v1 a) (v1 b)) (sub (v2 a) (v2 b)).

Definition cross (a b : Vector3 Scalar) : Vector3 Scalar :=
  vector3 (sub (mul (v1 a) (v2 b)) (mul (v2 a) (v1 b)))
          (sub (mul (v2 a) (v0 b)) (mul (v0 a) (v2 b)))
          (sub (mul (v0 a) (v1 b)) (mul (v1 a) (v0 b))).

Definition qadd (a b : Coeffs Scalar) : Coeffs Scalar :=
  coeffs (add (qx a) (qx b)) (add (qy a) (qy b))
         (add (qz a) (qz b)) (add (qw a) (qw b)).

(** [v.middleRows<3>(start)] of a dynamic vector; [None] when the block
    leaves the vector. *)
Definition middleRows3 (start : nat) (v : list Scalar) : option (Vector3 Scalar) :=
  a ← v !! start;
  b ← v !! (start + 1)%nat;
  c ← v !! (start + 2)%nat;
  Some (vector3 a b c).

(** Modelled from the spec: [FreeFloatingRigidBodiesState]
    (dbot/states/free_floating_rigid_bodies_state.hpp) is not among the
    sources.  Section 3: "ordered collection of N bodies; each has
    position (3-vector), orientation (unit-norm quaternion), linear
    velocity (3-vector), angular velocity (3-vector)". *)
Record Body : Type := {
  position : Vector3 Scalar;
  orientation : Coeffs Scalar;
  linear_velocity : Vector3 Scalar;
  angular_velocity : Vector3 Scalar;
}.

Definition State : Type := list Body.

Definition DIMENSION_PER_OBJECT : nat := 6.

Record BrownianObjectMotionModel : Type := {
  (* conditionals *)
  state_ : State;
  quaternion_map_ : list Matrix43;
  (* parameters *)
  rotation_center_ : list (Vector3 Scalar);
  (* processes *)
  linear_process_ : list Process;
  angular_process_ : list Process;
}.

(** [state_ = state] *)
Definition assign_state (state : State) (m : BrownianObjectMotionModel) :=
  {| state_ := state;
     quaternion_map_ := quaternion_map_ m;
     rotation_center_ := rotation_center_ m;
     linear_process_ := linear_process_ m;
     angular_process_ := angular_process_ m |}.

(** The internal representation of body [b] for rotation center [c]: the
    position and the linear velocity of the center. *)
Definition internal_position (c : Vector3 Scalar) (b : Body) : Vector3 Scalar :=
  vadd (position b) (mul33 (rotation_matrix (orientation b)) c).

Definition internal_linear_velocity (c : Vector3 Scalar) (b : Body) : Vector3 Scalar :=
  vadd (linear_velocity b) (cross (angular_velocity b) (internal_position c b)).

Definition internal (c : Vector3 Scalar) (b : Body) : Body :=
  {| position := internal_position c b;
     orientation := orientation b;
     linear_velocity := internal_linear_velocity c b;
     angular_velocity := angular_velocity b |}.

(** One turn of the loop of [condition].  Indexing a [std::vector] or a
    state outside its bounds is undefined; [None] stands for it. *)
Definition condition_body (delta_time : Scalar) (control : list Scalar)
    (i : nat) (m : BrownianObjectMotionModel) : option BrownianObjectMotionModel :=
  b ← state_ m !! i;
  _ ← quaternion_map_ m !! i;
  c ← rotation_center_ m !! i;
  linear ← linear_process_ m !! i;
  linear_control ← middleRows3 (i * DIMENSION_PER_OBJECT) control;
  angular ← angular_process_ m !! i;
  angular_control ← middleRows3 (i * DIMENSION_PER_OBJECT + 3) control;
  let b' := internal c b in
  Some {| state_ := <[i := b']> (state_ m);
          quaternion_map_ := <[i := quaternion_matrix (orientation b)]> (quaternion_map_ m);
          rotation_center_ := rotation_center_ m;
          linear_process_ :=
            <[i := process_condition linear delta_time
                     (zero3, linear_velocity b') linear_control]>
              (linear_process_ m);
          angular_process_ :=
            <[i := process_condition angular delta_time
                     (zero3, angular_velocity b') angular_control]>
              (angular_process_ m) |}.

(** [for (i = start; i < start + count; i++) body(i)] *)
Fixpoint loop {A : Type} (body : nat -> A -> option A)
    (count start : nat) (a : A) : option A :=
  match count with
  | O => Some a
  | S count' => a' ← body start a; loop body count' (S start) a'
  end.

(** [condition(delta_time, state, control)] *)
Definition condition (m : BrownianObjectMotionModel) (delta_time : Scalar)
    (state : State) (control : list Scalar) : option BrownianObjectMotionModel :=
  loop (condition_body delta_time control) (length state) 0 (assign_state state m).

(** The body written in one turn of the loop of [map_standard_normal]:
    [b] is the body of [state_], [Q] its entry of [quaternion_map_], [c] its
    rotation center. *)
Definition external (c : Vector3 Scalar) (Q : Matrix43) (linear angular : Process)
    (position_noise orientation_noise : Vector3 Scalar) (b : Body) : Body :=
  let linear_delta := process_map_standard_normal linear position_noise in
  let angular_delta := process_map_standard_normal angular orientation_noise in
  let position1 := vadd (position b) (fst linear_delta) in
  let updated_quaternion := qadd (orientation b) (mul43 Q (fst angular_delta)) in
  let orientation' := normalized updated_quaternion in
  let linear_velocity1 := snd linear_delta in
  let angular_velocity' := snd angular_delta in
  (* transform to external coordinate system *)
  let linear_velocity' := vsub linear_velocity1 (cross angular_velocity' (position b)) in
  let position' := vsub position1 (mul33 (rotation_matrix orientation') c) in
  {| position := position';
     orientation := orientation';
     linear_velocity := linear_velocity';
     angular_velocity := angular_velocity' |}.

(** One turn of the loop of [map_standard_normal]; [new_state] is the
    state under construction. *)
Definition map_body (m : BrownianObjectMotionModel) (sample : list Scalar)
    (i : nat) (new_state : State) : option State :=
  position_noise ← middleRows3 (i * DIMENSION_PER_OBJECT) sample;
  orientation_noise ← middleRows3 (i * DIMENSION_PER_OBJECT + 3) sample;
  linear ← linear_process_ m !! i;
  angular ← angular_process_ m !! i;
  _ ← new_state !! i;
  b ← state_ m !! i;
  Q ← quaternion_map_ m !! i;
  c ← rotation_center_ m !! i;
  Some (<[i := external c Q linear angular position_noise orientation_noise b]>
          new_state).

(** [map_standard_normal(sample)].  [State new_state(state_.body_count())]
    has the bodies of [fresh]; all four members of body [i] are assigned
    in turn [i] before any of them is read. *)
Definition map_standard_normal (fresh : Body) (m : BrownianObjectMotionModel)
    (sample : list Scalar) : option State :=
  loop (map_body m sample) (length (state_ m)) 0
       (replicate (length (state_ m)) fresh).

(** [parameters(object_index, rotation_center, damping, ...)] *)
Definition parameters (m : BrownianObjectMotionModel) (object_index : nat)
    (rotation_center : Vector3 Scalar) (damping : Scalar)
    (linear_acceleration_covariance angular_acceleration_covariance : Moment)
    : option BrownianObjectMotionModel :=
  _ ← rotation_center_ m !! object_index;
  linear ← linear_process_ m !! object_index;
  angular ← angular_process_ m !! object_index;
  Some {| state_ := state_ m;
          quaternion_map_ := quaternion_map_ m;
          rotation_center_ := <[object_index := rotation_center]> (rotation_center_ m);
          linear_process_ :=
            <[object_index := process_parameters linear damping
                                linear_acceleration_covariance]> (linear_process_ m);
          angular_process_ :=
            <[object_index := process_parameters angular damping
                                angular_acceleration_covariance]> (angular_process_ m) |}.

(** [predict_state(delta_time, state, noise, input)]: the model after the
    call and the state returned by value. *)
Definition predict_state (fresh : Body) (m : BrownianObjectMotionModel)
    (delta_time : Scalar) (state : State) (noise input : list Scalar)
    : option (BrownianObjectMotionModel * State) :=
  m' ← condition m delta_time state input;
  new_state ← map_standard_normal fresh m' noise;
  Some (m', new_state).

(** *** The filter's side of a prediction *)

(** The two objects involved in a call [model.predict_state(dt, state,
    noise, input)] made by the filter: the filter's own state object, which
    the call receives as [const State&], and the model. *)
Record Objects : Type := {
  filter_state : State;
  model : BrownianObjectMotionModel;
}.

(** The call: the objects afterwards and the value handed back. *)
Definition call_predict_state (fresh : Body) (delta_time : Scalar)
    (noise input : list Scalar) (o : Objects) : option (Objects * State) :=
  r ← predict_state fresh (model o) delta_time (filter_state o) noise input;
  Some ({| filter_state := filter_state o; model := fst r |}, snd r).

(** *** Dynamics without the change of representation *)

(** The step of body [b] when both integrators are driven by the body's
    own (external) velocities and their output is taken as it is: the
    dynamics the model would have without a rotation center. *)
Definition pivot_free_body (delta_time : Scalar) (linear angular : Process)
    (linear_control angular_control position_noise orientation_noise : Vector3 Scalar)
    (b : Body) : Body :=
  let linear' := process_condition linear delta_time
                   (zero3, linear_velocity b) linear_control in
  let angular' := process_condition angular delta_time
                    (zero3, angular_velocity b) angular_control in
  let linear_delta := process_map_standard_normal linear' position_noise in
  let angular_delta := process_map_standard_normal angular' orientation_noise in
  {| position := vadd (position b) (fst linear_delta);
     orientation :=
       normalized (qadd (orientation b)
                        (mul43 (quaternion_matrix (orientation b)) (fst angular_delta)));
     linear_velocity := snd linear_delta;
     angular_velocity := snd angular_delta |}.

(** *** The constructor *)

(** [BrownianObjectMotionModel(count_objects)]: [state_(count_objects)] and
    the four [resize(count_objects)].  A resize fills a vector with
    default-constructed elements; [fresh], [Q0] and [c0] stand for the
    contents of a body and of Eigen matrices nothing was assigned to yet,
    [P0] for the default-constructed integrator. *)
Definition new (count_objects : nat) (fresh : Body) (Q0 : Matrix43)
    (c0 : Vector3 Scalar) (P0 : Process) : BrownianObjectMotionModel :=
  {| state_ := replicate count_objects fresh;
     quaternion_map_ := replicate count_objects Q0;
     rotation_center_ := replicate count_objects c0;
     linear_process_ := replicate count_objects P0;
     angular_process_ := replicate count_objects P0 |}.

End Model.
End Brownian.

(** ** Binary64 instance *)

(** [double] as Rocq's primitive binary64 floats.  Arithmetic, [sqrt], [==],
    [isnan] and [isinf] are the IEEE-754 operations, with one NaN;
    [std::exp] and [std::log] are computed with correct rounding.  The
    routines of fl and Eigen, the renderer and the random source are outside
    the repository; the instance gives each a computable stand-in so that
    the models can be run.  No general statement depends on them. *)
Module Double.

Local Open Scope float_scope.

(** *** [std::exp] and [std::log]

    Both are computed on integers, in fixed point with [fraction_bits] bits
    behind the point, and rounded once to the nearest binary64 value: the
    result is the correctly rounded one, which is what libm returns at the
    arguments the models are run on below.  NaN, the infinities, the zeros,
    overflow and underflow are treated as C's Annex F prescribes. *)

Definition fraction_bits : Z := 320.

Definition scaled_mul (a b : Z) : Z := Z.shiftr (a * b) fraction_bits.

(** [t + t^3/3 + t^5/5 + ...] for [|t| <= 1/3]. *)
Fixpoint atanh_series (n : nat) (t2 power k : Z) : Z :=
  match n with
  | O => 0%Z
  | S n' => (power / k + atanh_series n' t2 (scaled_mul power t2) (k + 2))%Z
  end.

Definition scaled_atanh (t : Z) : Z := atanh_series 110 (scaled_mul t t) t 1.

(** [ln 2 = 2 atanh (1/3)] *)
Definition scaled_ln2 : Z := (2 * scaled_atanh (Z.shiftl 1 fraction_bits / 3))%Z.

(** [1 + r + r^2/2! + ...] for [|r| <= ln 2 / 2]. *)
Fixpoint exp_series (n : nat) (r term k : Z) : Z :=
  match n with
  | O => 0%Z
  | S n' => (term + exp_series n' r (scaled_mul term r / k) (k + 1))%Z
  end.

Definition scaled_exp (r : Z) : Z := exp_series 90 r (Z.shiftl 1 fraction_bits) 1.

(** [v * 2^e] rounded to nearest; the low bit added marks [v] as inexact. *)
Definition round_scaled (v e : Z) : float :=
  FloatOps.SF2Prim
    (SpecFloat.binary_normalize FloatOps.prec FloatOps.emax
       (2 * v + 1) (e - fraction_bits - 1) false).

(** [exp x = 2^k exp r] with [x = k ln 2 + r]. *)
Definition std_exp (x : float) : float :=
  match FloatOps.Prim2SF x with
  | SpecFloat.S754_nan => nan
  | SpecFloat.S754_zero _ => 1
  | SpecFloat.S754_infinity s => if s then 0 else infinity
  | SpecFloat.S754_finite s m e =>
      if (11 <? Z.log2 (Z.pos m) + 1 + e)%Z then (if s then 0 else infinity)
      else
        let magnitude := Z.shiftl (Z.pos m) (e + fraction_bits) in
        let x' := if s then (- magnitude)%Z else magnitude in
        let k := ((2 * x' + scaled_ln2) / (2 * scaled_ln2))%Z in
        round_scaled (scaled_exp (x' - k * scaled_ln2)) k
  end.

(** [log (f 2^q) = q ln 2 + 2 atanh ((f - 1) / (f + 1))] with [1 <= f < 2]. *)
Definition std_log (y : float) : float :=
  match FloatOps.Prim2SF y with
  | SpecFloat.S754_nan => nan
  | SpecFloat.S754_zero _ => neg_infinity
  | SpecFloat.S754_infinity s => if s then nan else infinity
  | SpecFloat.S754_finite true _ _ => nan
  | SpecFloat.S754_finite false m e =>
      let n := Z.log2 (Z.pos m) in
      let unit := Z.shiftl 1 n in
      let t := (Z.shiftl (Z.pos m - unit) fraction_bits / (Z.pos m + unit))%Z in
      let l := ((e + n) * scaled_ln2 + 2 * scaled_atanh t)%Z in
      if (l =? 0)%Z then 0 else round_scaled l 0
  end.

#[export] Instance arith : Arith float := {|
  zero := 0;
  one := 1;
  add := PrimFloat.add;
  sub := PrimFloat.sub;
  mul := PrimFloat.mul;
  sqrt := PrimFloat.sqrt;
  exp := std_exp;
  equal := PrimFloat.eqb;
  isnan := PrimFloat.is_nan;
|}.

(** Depth images: every [float] is a [double]. *)
#[export] Instance float32 : Float32 float float := {|
  isinf := PrimFloat.is_infinity;
  seven := 7;
  to_scalar := fun d => d;
|}.

(** A hash of the coefficients' mantissas and exponents. *)
Definition hash_scalar (x : float) : Z :=
  let (m, e) := PrimFloat.frshiftexp x in
  (Uint63.to_Z (PrimFloat.normfr_mantissa m) + 31 * Uint63.to_Z e)%Z.

#[export] Instance hashing : Hashing float := {|
  VectorHash := fun v => foldr (fun x h => (hash_scalar x + 31 * h)%Z) 0%Z v;
|}.

(** A scene is the depth image seen from the origin; moving the object
    along the first pose coordinate moves every pixel by as much. *)
#[export] Instance rendering : Rendering float float (list float) := {|
  render_image := fun scene poses => (fun d => d + default 0 (head poses)) <$> scene;
  fzero := 0;
|}.

(** The random source is the list of the draws to come.  The sample of
    the mixing model is the blend of the two transition probabilities by the
    probability it was conditioned on; it reads no random source. *)
#[export] Instance occlusion : Occlusion float (list float) := {|
  sigmoid := fun x => 1 / (1 + std_exp (- x));
  logit := fun p => std_log (p / (1 - p));
  truncated_map_standard_normal := fun mean sigma min max x =>
    let y := mean + sigma * x in
    if y <? min then min else if max <? y then max else y;
  mixing_sample := fun p_occluded_visible p_occluded_occluded delta_time p g =>
    (p * p_occluded_occluded + (1 - p) * p_occluded_visible, g);
|}.

Definition Matrix33 : Type := Vector3 float * Vector3 float * Vector3 float.
Definition Matrix43 : Type :=
  Vector3 float * Vector3 float * Vector3 float * Vector3 float.

Definition dot (a b : Vector3 float) : float :=
  v0 a * v0 b + v1 a * v1 b + v2 a * v2 b.

#[export] Instance geometry : Geometry float Matrix33 Matrix43 := {|
  rotation_matrix := fun q =>
    let (x, y, z, w) := q in
    (vector3 (1 - 2 * (y * y + z * z)) (2 * (x * y - z * w)) (2 * (x * z + y * w)),
     vector3 (2 * (x * y + z * w)) (1 - 2 * (x * x + z * z)) (2 * (y * z - x * w)),
     vector3 (2 * (x * z - y * w)) (2 * (y * z + x * w)) (1 - 2 * (x * x + y * y)));
  quaternion_matrix := fun q =>
    let (x, y, z, w) := q in
    (vector3 (0.5 * w) (0.5 * z) (0.5 * - y),
     vector3 (0.5 * - z) (0.5 * w) (0.5 * x),
     vector3 (0.5 * y) (0.5 * - x) (0.5 * w),
     vector3 (0.5 * - x) (0.5 * - y) (0.5 * - z));
  mul33 := fun R v =>
    let '(r0, r1, r2) := R in vector3 (dot r0 v) (dot r1 v) (dot r2 v);
  mul43 := fun Q v =>
    let '(r0, r1, r2, r3) := Q in coeffs (dot r0 v) (dot r1 v) (dot r2 v) (dot r3 v);
  normalized := fun q =>
    let (x, y, z, w) := q in
    let n := PrimFloat.sqrt (x * x + y * y + z * z + w * w) in
    coeffs (x / n) (y / n) (z / n) (w / n);
|}.

(** An integrator without damping: it remembers what it was conditioned
    on, moves by [dt * velocity + noise] and accelerates by [dt * control]. *)
Record Process : Type := {
  damping : float;
  delta_time : float;
  velocity : Vector3 float;
  control : Vector3 float;
}.

Definition scale (s : float) (v : Vector3 float) : Vector3 float :=
  vector3 (s * v0 v) (s * v1 v) (s * v2 v).

#[export] Instance integrator : Integrator float Process unit := {|
  process_condition := fun p dt state u =>
    {| damping := damping p; delta_time := dt; velocity := snd state; control := u |};
  process_map_standard_normal := fun p noise =>
    (Brownian.vadd (scale (delta_time p) (velocity p)) noise,
     Brownian.vadd (velocity p) (scale (delta_time p) (control p)));
  process_parameters := fun p d _ =>
    {| damping := d; delta_time := delta_time p;
       velocity := velocity p; control := control p |};
|}.

(** *** Objects to run the depth model on *)

(** A camera of one row and two columns whose first pixel sees a surface
    at depth [1] and whose second pixel sees none; camera noise [3], model
    noise [4]; states of eight rows: six of pose, two occlusion features. *)
Definition renderer0 : Depth.Renderer (Scalar := float) (Scene := list float) :=
  {| Depth.scene := [1; infinity];
     Depth.renderer_state := [];
     Depth.render_calls := 0 |}.

Definition depth_world
  : Depth.World (Scalar := float) (Float := float) (Scene := list float) :=
  {| Depth.this :=
       {| Depth.camera_obsrv_model_ :=
            {| Depth.local_obsrv_model := Pixel.new 25;
               Depth.count_local_models := 2 |};
          Depth.model_sigma_ := 4;
          Depth.camera_sigma_ := 3;
          Depth.depth_rendering_ := [0; 0];
          Depth.state_dimension_ := 8;
          Depth.pose_state_dimension_ := 6;
          Depth.predictions_cache_ := [] |};
     Depth.renderer_ := renderer0 |}.

Definition state_a : list float := [0; 0; 0; 0; 0; 0; 0; 0].
Definition state_b : list float := [0; 0; 0; 0; 0; 0; 1; 1].
Definition state_c : list float := [0.5; 0; 0; 0; 0; 0; 0; 0].
Definition noise_a : list float := [1; 1].

(** *** Objects to run the occlusion model on *)

(** Transition probabilities [0.25] and [0.75], diffusion [0.125]; the
    members [condition] sets first start at [0]. *)
Definition occlusion_model : ContinuousOcclusion.ContinuousOcclusionProcessModel :=
  ContinuousOcclusion.new 0.25 0.75 0.125 0
    {| ContinuousOcclusion.tg_mean := 0; ContinuousOcclusion.tg_sigma := 0;
       ContinuousOcclusion.tg_min := 0; ContinuousOcclusion.tg_max := 0 |}.


(** The state of the random source: the draws to come. *)
Definition draws : list float := [0.125; 0.25].

(** *** Objects to run the motion model on *)

Definition origin3 : Vector3 float := vector3 0 0 0.

Definition process0 : Process :=
  {| damping := 0; delta_time := 0; velocity := origin3; control := origin3 |}.


(** One body at [(1, 0, 0)] with the identity orientation: at rest, moving
    along the first axis, and spinning about the third. *)
Definition resting : Brownian.Body (Scalar := float) :=
  {| Brownian.position := vector3 1 0 0;
     Brownian.orientation := coeffs 0 0 0 1;
     Brownian.linear_velocity := origin3;
     Brownian.angular_velocity := origin3 |}.

Definition moving : Brownian.Body (Scalar := float) :=
  {| Brownian.position := vector3 1 0 0;
     Brownian.orientation := coeffs 0 0 0 1;
     Brownian.linear_velocity := vector3 1 0 0;
     Brownian.angular_velocity := origin3 |}.

Definition spinning : Brownian.Body (Scalar := float) :=
  {| Brownian.position := vector3 1 0 0;
     Brownian.orientation := coeffs 0 0 0 1;
     Brownian.linear_velocity := origin3;
     Brownian.angular_velocity := vector3 0 0 1 |}.

(** A model of one body with rotation center [(0, 0, 0)], and the same
    model as an earlier prediction for another state would have left it. *)
Definition motion_model
  : Brownian.BrownianObjectMotionModel
      (Scalar := float) (Matrix43 := Matrix43) (Process := Process) :=
  {| Brownian.state_ := [resting];
     Brownian.quaternion_map_ := [quaternion_matrix (coeffs 0 0 0 1)];
     Brownian.rotation_center_ := [origin3];
     Brownian.linear_process_ := [process0];
     Brownian.angular_process_ := [process0] |}.


Definition zeros6 : list float := [0; 0; 0; 0; 0; 0].




(** *** Further inputs *)

(** A state whose pose has a NaN, and a model for two bodies. *)
Definition state_nan : list float := [nan; 0; 0; 0; 0; 0; 0; 0].

Definition two_bodies
  : Brownian.BrownianObjectMotionModel
      (Scalar := float) (Matrix43 := Matrix43) (Process := Process) :=
  Brownian.new 2 resting (quaternion_matrix (coeffs 0 0 0 1)) origin3 process0.

Definition zeros12 : list float := zeros6 ++ zeros6.

(** The camera of [depth_world] for poses of seven rows, and two states
    that agree on the first six rows and differ in the seventh. *)
Definition wide_world
  : Depth.World (Scalar := float) (Float := float) (Scene := list float) :=
  {| Depth.this :=
       {| Depth.camera_obsrv_model_ :=
            {| Depth.local_obsrv_model := Pixel.new 25;
               Depth.count_local_models := 2 |};
          Depth.model_sigma_ := 4;
          Depth.camera_sigma_ := 3;
          Depth.depth_rendering_ := [0; 0];
          Depth.state_dimension_ := 9;
          Depth.pose_state_dimension_ := 7;
          Depth.predictions_cache_ := [] |};
     Depth.renderer_ := renderer0 |}.

Definition state_p : list float := [0; 0; 0; 0; 0; 0; 1; 0; 0].
Definition state_q : list float := [0; 0; 0; 0; 0; 0; 2; 0; 0].

End Double.

(** * Properties *)

(** ** Pixel observation model *)

Section PixelFacts.
  Context {Scalar : Type} `{Arith Scalar}.

Lemma predict_observation_fst (m : Pixel.PixelObservationModel)
    (depth feature noise delta_time : Scalar) :
  fst (Pixel.predict_observation m (depth, feature) noise delta_time)
  = add depth (mul (mul (exp feature) (Pixel.covariance m)) noise).
Proof. reflexivity. Qed.

(** C8: for every latent state and every noise value, the second component
    of the observation returned by the pixel model's [predict_observation]
    is the product of the first component with itself, as the very same
    scalar (no tolerance involved). *)
Theorem predict_observation_second_is_square
    (m : Pixel.PixelObservationModel) (state : Pixel.State)
    (noise : Pixel.Noise) (delta_time : Scalar) :
  let y := Pixel.predict_observation m state noise delta_time in
  snd y = mul (fst y) (fst y).
Proof.
  destruct state as [depth feature].
  unfold Pixel.predict_observation; cbn [fst snd].
  reflexivity.
Qed.

End PixelFacts.

(** ** Depth observation model *)

Section DepthFacts.
  Context {Scalar Float Scene : Type}.
  Context `{Arith Scalar} `{Float32 Scalar Float} `{Hashing Scalar}
          `{Rendering Scalar Float Scene}.

Local Abbreviation World :=
  (Depth.World (Scalar := Scalar) (Float := Float) (Scene := Scene)).
Local Abbreviation cache w := (Depth.predictions_cache_ (Depth.this w)).
Local Abbreviation camera w := (Depth.camera_obsrv_model_ (Depth.this w)).
Local Abbreviation renders w := (Depth.render_calls (Depth.renderer_ w)).

(** *** Looking up keys *)

Lemma key_match_equal (probe key : Depth.Vector) :
  Depth.key_match probe key = true -> Depth.matrix_equal probe key = true.
Proof. unfold Depth.key_match. intros [_ ?]%andb_true_iff. done. Qed.

Lemma matrix_equal_differ (a b : Depth.Vector) (i : nat) (x y : Scalar) :
  a !! i = Some x -> b !! i = Some y -> equal x y = false ->
  Depth.matrix_equal a b = false.
Proof.
  revert b i. induction a as [|x' a IH]; intros [|y' b] [|i]; simpl; try done.
  - intros [= ->] [= ->] ->. done.
  - intros Ha Hb Hxy. rewrite (IH _ _ Ha Hb Hxy). apply andb_false_r.
Qed.

Lemma cache_find_Some (pose : Depth.Vector) (c : Depth.Cache) (i : nat) :
  Depth.cache_find pose c = Some i ->
  exists key internal, c !! i = Some (key, internal)
                       /\ Depth.key_match pose key = true.
Proof.
  revert i. induction c as [|[key internal] c IH]; intros i; simpl; [done|].
  destruct (Depth.key_match pose key) eqn:E.
  - intros [= <-]. eauto.
  - destruct (Depth.cache_find pose c) as [j|]; simpl; [|done].
    intros [= <-]. apply IH. done.
Qed.

Lemma cache_find_app_Some (pose : Depth.Vector) (c c' : Depth.Cache) (i : nat) :
  Depth.cache_find pose c = Some i -> Depth.cache_find pose (c ++ c') = Some i.
Proof.
  revert i. induction c as [|[key internal] c IH]; intros i; simpl; [done|].
  destruct (Depth.key_match pose key); [done|].
  destruct (Depth.cache_find pose c) as [j|]; simpl; [|done].
  intros [= <-]. rewrite (IH j); done.
Qed.

Lemma cache_find_app_None (pose : Depth.Vector) (c c' : Depth.Cache) :
  Depth.cache_find pose c = None ->
  Depth.cache_find pose (c ++ c') = (fun i => length c + i)%nat <$> Depth.cache_find pose c'.
Proof.
  induction c as [|[key internal] c IH]; simpl.
  - intros _. destruct (Depth.cache_find pose c'); done.
  - destruct (Depth.key_match pose key); [done|].
    destruct (Depth.cache_find pose c) as [j|] eqn:E; simpl; [done|].
    intros _. rewrite IH by done.
    destruct (Depth.cache_find pose c'); done.
Qed.

(** Entries stored under keys the probe does not match are not found. *)
Lemma cache_find_no_match (pose : Depth.Vector) (c : Depth.Cache) :
  Forall (fun e => Depth.key_match pose (fst e) = false) c ->
  Depth.cache_find pose c = None.
Proof.
  induction 1 as [|[key internal] c Hk _ IH]; simpl; [done|].
  simpl in Hk. rewrite Hk, IH. done.
Qed.

(** *** The two ways through [predict_observation] *)

(** A hit: the entry found is read, nothing is written and the renderer is
    left alone. *)
Lemma predict_observation_hit (w : World) (state noise pose : Depth.Vector)
    (delta_time : Scalar) (i : nat) (key internal : Depth.Vector) :
  Depth.topRows 6 state = Some pose ->
  Depth.cache_find pose (cache w) = Some i ->
  cache w !! i = Some (key, internal) ->
  Depth.predict_observation state noise delta_time w
  = (Depth.camera_predict_observation (camera w) internal noise delta_time, w).
Proof.
  intros Hpose Hfind Hentry.
  unfold Depth.predict_observation, Depth.bind, Depth.lift, Depth.get_model,
    Depth.cache_subscript, Depth.read_entry, Depth.ret, Depth.bind.
  rewrite Hpose. simpl. rewrite Hfind. simpl. rewrite Hfind. simpl.
  rewrite Hentry. simpl.
  destruct w as [m r]. reflexivity.
Qed.

Lemma cache_subscript_hit (w : World) (pose : Depth.Vector) (i : nat) :
  Depth.cache_find pose (cache w) = Some i ->
  Depth.cache_subscript pose w = (Some i, w).
Proof.
  intros Hfind. unfold Depth.cache_subscript, Depth.bind, Depth.get_model.
  rewrite Hfind. reflexivity.
Qed.

Lemma cache_subscript_miss (w : World) (pose : Depth.Vector) :
  Depth.cache_find pose (cache w) = None ->
  Depth.cache_subscript pose w
  = (Some (length (cache w)), Depth.with_cache (cache w ++ [(pose, [])]) w).
Proof.
  intros Hfind. unfold Depth.cache_subscript, Depth.bind, Depth.get_model.
  rewrite Hfind. reflexivity.
Qed.

Lemma map_run (w : World) (state poses : Depth.Vector) (entry : nat) :
  Depth.topRows (Depth.pose_state_dimension_ (Depth.this w)) state = Some poses ->
  Depth.map state entry w
  = match Depth.convert_from (Depth.pose_state_dimension_ (Depth.this w)) 0
            (render_image (Depth.scene (Depth.renderer_ w)) poses) state with
    | Some internal =>
        (Some tt,
         Depth.with_cache
           (alter (fun e => (fst e, internal)) entry (cache w))
           (Depth.after_render poses w))
    | None => (None, Depth.after_render poses w)
    end.
Proof.
  intros Hposes.
  unfold Depth.map, Depth.bind, Depth.get_model, Depth.lift.
  rewrite Hposes. cbn.
  unfold Depth.convert, Depth.bind, Depth.get_model, Depth.lift. cbn.
  destruct (Depth.convert_from _ 0 _ state); reflexivity.
Qed.

(** A miss: the renderer is given the poses of the state and renders once;
    the entry created for the pose receives the converted image.  The
    entry is then looked up again for the prediction, which finds it only
    if the pose matches itself. *)
Lemma predict_observation_miss (w : World) (state noise pose poses : Depth.Vector)
    (delta_time : Scalar) :
  Depth.topRows 6 state = Some pose ->
  Depth.cache_find pose (cache w) = None ->
  Depth.topRows (Depth.pose_state_dimension_ (Depth.this w)) state = Some poses ->
  Depth.predict_observation state noise delta_time w
  = match Depth.convert_from (Depth.pose_state_dimension_ (Depth.this w)) 0
            (render_image (Depth.scene (Depth.renderer_ w)) poses) state with
    | Some internal =>
        if Depth.key_match pose pose then
          (Depth.camera_predict_observation (camera w) internal noise delta_time,
           Depth.with_cache (cache w ++ [(pose, internal)])
                            (Depth.after_render poses w))
        else
          (Depth.camera_predict_observation (camera w) [] noise delta_time,
           Depth.with_cache (cache w ++ [(pose, internal); (pose, [])])
                            (Depth.after_render poses w))
    | None =>
        (None, Depth.with_cache (cache w ++ [(pose, [])])
                                (Depth.after_render poses w))
    end.
Proof.
  intros Hpose Hfind Hposes.
  unfold Depth.predict_observation, Depth.bind at 1 2 3, Depth.lift at 1,
    Depth.get_model at 1.
  rewrite Hpose, Hfind.
  unfold Depth.bind at 1. rewrite (cache_subscript_miss _ _ Hfind).
  rewrite (map_run _ state poses) by exact Hposes.
  cbn [Depth.with_cache Depth.this Depth.renderer_ Depth.set_cache
       Depth.pose_state_dimension_ Depth.predictions_cache_].
  destruct (Depth.convert_from _ 0 _ state) as [internal|]; [|reflexivity].
  replace (alter (fun e : Depth.Vector * Depth.Vector => (fst e, internal))
             (length (cache w)) (cache w ++ [(pose, [])]))
    with (cache w ++ [(pose, internal)]).
  2: { rewrite <- (Nat.add_0_r (length _)). rewrite alter_app_r. reflexivity. }
  set (w1 := Depth.with_cache (cache w ++ [(pose, internal)]) _).
  assert (Hc : cache w1 = cache w ++ [(pose, internal)]) by reflexivity.
  destruct (Depth.key_match pose pose) eqn:Hself.
  - assert (Hf : Depth.cache_find pose (cache w1) = Some (length (cache w))).
    { rewrite Hc, cache_find_app_None by done. cbn. rewrite Hself. cbn.
      f_equal. lia. }
    unfold Depth.bind at 1. rewrite (cache_subscript_hit _ _ _ Hf).
    unfold Depth.read_entry, Depth.bind, Depth.get_model, Depth.lift.
    unfold Depth.Cache in *. rewrite Hc, list_lookup_middle by reflexivity. reflexivity.
  - assert (Hf : Depth.cache_find pose (cache w1) = None).
    { rewrite Hc, cache_find_app_None by done. cbn. rewrite Hself. reflexivity. }
    unfold Depth.bind at 1. rewrite (cache_subscript_miss _ _ Hf).
    unfold Depth.read_entry, Depth.bind, Depth.get_model, Depth.lift.
    cbn [Depth.with_cache Depth.this Depth.set_cache Depth.predictions_cache_].
    unfold Depth.Cache in *. rewrite list_lookup_middle by reflexivity.
    rewrite Hc, <- app_assoc. reflexivity.
Qed.

(** The two ways to stop before the renderer is reached. *)
Lemma predict_observation_no_pose (w : World) (state noise : Depth.Vector)
    (delta_time : Scalar) :
  Depth.topRows 6 state = None ->
  Depth.predict_observation state noise delta_time w = (None, w).
Proof.
  intros Hpose. unfold Depth.predict_observation, Depth.bind at 1, Depth.lift at 1.
  rewrite Hpose. reflexivity.
Qed.

Lemma predict_observation_miss_no_poses (w : World)
    (state noise pose : Depth.Vector) (delta_time : Scalar) :
  Depth.topRows 6 state = Some pose ->
  Depth.cache_find pose (cache w) = None ->
  Depth.topRows (Depth.pose_state_dimension_ (Depth.this w)) state = None ->
  Depth.predict_observation state noise delta_time w
  = (None, Depth.with_cache (cache w ++ [(pose, [])]) w).
Proof.
  intros Hpose Hfind Hposes.
  unfold Depth.predict_observation, Depth.bind at 1 2 3, Depth.lift at 1,
    Depth.get_model at 1.
  rewrite Hpose, Hfind.
  unfold Depth.bind at 1. rewrite (cache_subscript_miss _ _ Hfind).
  unfold Depth.map, Depth.bind at 1 2, Depth.get_model at 1, Depth.lift at 1.
  cbn [Depth.with_cache Depth.this Depth.set_cache Depth.pose_state_dimension_].
  rewrite Hposes. reflexivity.
Qed.

(** What a miss that reaches the renderer leaves behind, whichever way it
    ends: one more [Render] call, and behind the old entries of the cache
    one for the pose, possibly followed by further ones under the same key. *)
Lemma predict_observation_miss_world (w : World)
    (state noise pose poses : Depth.Vector) (delta_time : Scalar) :
  Depth.topRows 6 state = Some pose ->
  Depth.cache_find pose (cache w) = None ->
  Depth.topRows (Depth.pose_state_dimension_ (Depth.this w)) state = Some poses ->
  let w' := snd (Depth.predict_observation state noise delta_time w) in
  renders w' = S (renders w)
  /\ camera w' = camera w
  /\ Depth.pose_state_dimension_ (Depth.this w')
     = Depth.pose_state_dimension_ (Depth.this w)
  /\ exists internal extra,
       cache w' = cache w ++ (pose, internal) :: extra
       /\ Forall (fun e => fst e = pose) extra.
Proof.
  intros Hpose Hfind Hposes. cbn zeta.
  rewrite (predict_observation_miss _ _ _ _ _ _ Hpose Hfind Hposes).
  destruct (Depth.convert_from _ 0 _ state) as [internal|].
  - destruct (Depth.key_match pose pose); cbn.
    + repeat split. exists internal, []. split; [reflexivity|constructor].
    + repeat split. exists internal, [(pose, [])]. split; [reflexivity|].
      repeat constructor.
  - cbn. repeat split. exists [], []. split; [reflexivity|constructor].
Qed.

(** The camera model is never written. *)
Lemma predict_observation_camera (w : World) (state noise : Depth.Vector)
    (delta_time : Scalar) :
  camera (snd (Depth.predict_observation state noise delta_time w)) = camera w.
Proof.
  destruct (Depth.topRows 6 state) as [pose|] eqn:Hpose.
  2: { rewrite predict_observation_no_pose by done. reflexivity. }
  destruct (Depth.cache_find pose (cache w)) as [i|] eqn:Hfind.
  { destruct (cache_find_Some _ _ _ Hfind) as (key & internal & Hentry & _).
    rewrite (predict_observation_hit _ _ _ _ _ _ _ _ Hpose Hfind Hentry).
    reflexivity. }
  destruct (Depth.topRows (Depth.pose_state_dimension_ (Depth.this w)) state)
    as [poses|] eqn:Hposes.
  - apply (predict_observation_miss_world _ _ _ _ _ _ Hpose Hfind Hposes).
  - rewrite (predict_observation_miss_no_poses _ _ _ _ _ Hpose Hfind Hposes).
    reflexivity.
Qed.

(** An empty latent vector has nothing to offer to a first pixel. *)
Lemma camera_predict_observation_empty (c : Depth.Factorized)
    (noise : Depth.Vector) (delta_time : Scalar) :
  (0 < Depth.count_local_models c)%nat ->
  Depth.camera_predict_observation c [] noise delta_time = None.
Proof.
  unfold Depth.camera_predict_observation.
  destruct (Depth.count_local_models c); [lia|]. reflexivity.
Qed.

(** After a call that returned an observation the pose of its state has an
    entry, and the observation is the camera model's prediction for the
    latent vector stored there. *)
Lemma predict_observation_returned (w : World) (state noise pose obs : Depth.Vector)
    (delta_time : Scalar) :
  (0 < Depth.count_local_models (camera w))%nat ->
  Depth.topRows 6 state = Some pose ->
  fst (Depth.predict_observation state noise delta_time w) = Some obs ->
  let w' := snd (Depth.predict_observation state noise delta_time w) in
  exists i key internal,
    Depth.cache_find pose (cache w') = Some i
    /\ cache w' !! i = Some (key, internal)
    /\ Depth.camera_predict_observation (camera w') internal noise delta_time = Some obs.
Proof.
  intros Hcount Hpose Hobs. cbn zeta.
  destruct (Depth.cache_find pose (cache w)) as [i|] eqn:Hfind.
  { destruct (cache_find_Some _ _ _ Hfind) as (key & internal & Hentry & _).
    rewrite (predict_observation_hit _ _ _ _ _ _ _ _ Hpose Hfind Hentry) in *.
    exists i, key, internal. auto. }
  destruct (Depth.topRows (Depth.pose_state_dimension_ (Depth.this w)) state)
    as [poses|] eqn:Hposes.
  2: { rewrite (predict_observation_miss_no_poses _ _ _ _ _ Hpose Hfind Hposes) in Hobs.
       discriminate. }
  rewrite (predict_observation_miss _ _ _ _ _ _ Hpose Hfind Hposes) in *.
  destruct (Depth.convert_from _ 0 _ state) as [internal|]; [|discriminate].
  destruct (Depth.key_match pose pose) eqn:Hself; cbn in Hobs |- *.
  - exists (length (cache w)), pose, internal.
    unfold Depth.Cache in *.
    rewrite cache_find_app_None, list_lookup_middle by done.
    cbn. rewrite Hself. cbn. rewrite Nat.add_0_r. auto.
  - rewrite camera_predict_observation_empty in Hobs by done. discriminate.
Qed.

(** C5: two calls of [predict_observation] with states that have the same
    first six components, the same noise and the same [delta_time]: when
    the first call returns an observation, the second returns the same one
    and leaves the world, the renderer's call count included, as it was,
    whatever the scene has become in between.  After [clear_cache()] the
    next call with such a state calls [Render] once more. *)
Theorem predict_observation_cached (w : World)
    (state1 state2 noise : Depth.Vector) (delta_time : Scalar) (obs : Depth.Vector) :
  (0 < Depth.count_local_models (camera w))%nat ->
  Depth.topRows 6 state1 = Depth.topRows 6 state2 ->
  fst (Depth.predict_observation state1 noise delta_time w) = Some obs ->
  let w1 := snd (Depth.predict_observation state1 noise delta_time w) in
  (forall scene' : Scene,
     Depth.predict_observation state2 noise delta_time (Depth.set_scene scene' w1)
     = (Some obs, Depth.set_scene scene' w1))
  /\ (forall (scene' : Scene) (poses : Depth.Vector),
       Depth.topRows (Depth.pose_state_dimension_ (Depth.this w1)) state2 = Some poses ->
       renders (snd (Depth.predict_observation state2 noise delta_time
                       (snd (Depth.clear_cache (Depth.set_scene scene' w1)))))
       = S (renders w1)).
Proof.
  intros Hcount Hsame Hobs w1.
  destruct (Depth.topRows 6 state1) as [pose|] eqn:Hpose.
  2: { rewrite predict_observation_no_pose in Hobs by done. discriminate. }
  destruct (predict_observation_returned _ _ _ _ _ _ Hcount Hpose Hobs)
    as (i & key & internal & Hfind & Hentry & Hcamera).
  fold w1 in Hfind, Hentry, Hcamera.
  split.
  - intros scene'.
    rewrite (predict_observation_hit _ state2 noise pose delta_time i key internal);
      [ | done | exact Hfind | exact Hentry ].
    cbn [Depth.set_scene Depth.this]. rewrite Hcamera. reflexivity.
  - intros scene' poses Hposes.
    apply (predict_observation_miss_world
             (snd (Depth.clear_cache (Depth.set_scene scene' w1)))
             state2 noise pose poses delta_time); [done|reflexivity|exact Hposes].
Qed.

(** C7: the key of the prediction cache is compared with [==], coefficient
    by coefficient and without tolerance.  For two states whose poses differ
    in some component, neither of which has an entry yet, the two calls of
    [predict_observation] call [Render] once each and leave two entries at
    different places of the cache, one under either pose. *)
Theorem predict_observation_distinct_poses (w : World)
    (state1 state2 noise1 noise2 pose1 pose2 poses1 poses2 : Depth.Vector)
    (delta_time1 delta_time2 : Scalar) (k : nat) (x y : Scalar) :
  Depth.topRows 6 state1 = Some pose1 ->
  Depth.topRows 6 state2 = Some pose2 ->
  pose1 !! k = Some x -> pose2 !! k = Some y -> equal y x = false ->
  Depth.cache_find pose1 (cache w) = None ->
  Depth.cache_find pose2 (cache w) = None ->
  Depth.topRows (Depth.pose_state_dimension_ (Depth.this w)) state1 = Some poses1 ->
  Depth.topRows (Depth.pose_state_dimension_ (Depth.this w)) state2 = Some poses2 ->
  let w1 := snd (Depth.predict_observation state1 noise1 delta_time1 w) in
  let w2 := snd (Depth.predict_observation state2 noise2 delta_time2 w1) in
  renders w1 = S (renders w)
  /\ renders w2 = S (renders w1)
  /\ exists (i j : nat) (internal1 internal2 : Depth.Vector),
       i <> j
       /\ cache w2 !! i = Some (pose1, internal1)
       /\ cache w2 !! j = Some (pose2, internal2).
Proof.
  intros Hpose1 Hpose2 Hx Hy Hxy Hfind1 Hfind2 Hposes1 Hposes2 w1 w2.
  destruct (predict_observation_miss_world _ _ noise1 _ _ delta_time1
              Hpose1 Hfind1 Hposes1)
    as (Hr1 & _ & Hdim1 & internal1 & extra1 & Hc1 & Hextra1).
  fold w1 in Hr1, Hdim1, Hc1.
  assert (Hdiffer : Depth.key_match pose2 pose1 = false).
  { unfold Depth.key_match.
    rewrite (matrix_equal_differ _ _ _ _ _ Hy Hx Hxy). apply andb_false_r. }
  assert (Hfind2' : Depth.cache_find pose2 (cache w1) = None).
  { rewrite Hc1, cache_find_app_None by done.
    rewrite (cache_find_no_match pose2 ((pose1, internal1) :: extra1)); [done|].
    constructor; [exact Hdiffer|].
    eapply Forall_impl; [exact Hextra1|]. intros e ->. exact Hdiffer. }
  rewrite <- Hdim1 in Hposes2.
  destruct (predict_observation_miss_world _ _ noise2 _ _ delta_time2
              Hpose2 Hfind2' Hposes2)
    as (Hr2 & _ & _ & internal2 & extra2 & Hc2 & _).
  fold w2 in Hr2, Hc2.
  split; [exact Hr1|]. split; [exact Hr2|].
  exists (length (cache w)), (length (cache w1)), internal1, internal2.
  rewrite Hc2. unfold Depth.Cache in *.
  split; [rewrite Hc1, length_app; simpl; lia|].
  split.
  - rewrite lookup_app_l by (rewrite Hc1, length_app; simpl; lia).
    rewrite Hc1. apply list_lookup_middle. reflexivity.
  - apply list_lookup_middle. reflexivity.
Qed.

(** The latent vector built by [convert]: pixel [i] has the depth rendered
    for it (or [7]) at row [2 i] and row [pose_state_dimension_ + i] of the
    state at row [2 i + 1]. *)
Lemma convert_from_rows (d start : nat) (depth : list Float)
    (state internal : Depth.Vector) (i : nat) (pixel : Float) :
  Depth.convert_from d start depth state = Some internal ->
  depth !! i = Some pixel ->
  internal !! (2 * i)%nat = Some (Depth.depth_value pixel)
  /\ internal !! (2 * i + 1)%nat = state !! (d + (start + i))%nat
  /\ is_Some (state !! (d + (start + i))%nat).
Proof.
  revert start internal i.
  induction depth as [|p depth IH]; intros start internal i Hconv Hi; [done|].
  cbn in Hconv.
  destruct (state !! (d + start)%nat) as [feature|] eqn:Hfeature; [|done].
  destruct (Depth.convert_from d (S start) depth state) as [rest|] eqn:Hrest; [|done].
  cbn in Hconv. injection Hconv as <-.
  destruct i as [|i].
  - cbn in Hi. injection Hi as ->. rewrite Nat.add_0_r, Hfeature. cbn. eauto.
  - cbn in Hi. destruct (IH _ _ _ Hrest Hi) as (Heven & Hodd & Hstate).
    replace (2 * S i)%nat with (S (S (2 * i))) by lia.
    replace (start + S i)%nat with (S start + i)%nat by lia.
    cbn [lookup list_lookup Nat.add]. auto.
Qed.

(** C10: a hit uses the latent vector stored when the entry was created.
    Let a first call create the entry of a pose and return; the vector it
    stores holds the occlusion features of its state.  A second call with a
    state of the same pose, whatever its other rows, its noise and the
    scene by then, returns the camera model's prediction for that stored
    vector and changes nothing.  After [clear_cache()] the prediction for
    the second state is made from the vector converted from its own rows. *)
Theorem predict_observation_hit_features (w : World)
    (state1 state2 noise1 noise2 pose poses1 obs1 : Depth.Vector)
    (delta_time1 delta_time2 : Scalar) :
  (0 < Depth.count_local_models (camera w))%nat ->
  Depth.topRows 6 state1 = Some pose ->
  Depth.topRows 6 state2 = Some pose ->
  Depth.cache_find pose (cache w) = None ->
  Depth.topRows (Depth.pose_state_dimension_ (Depth.this w)) state1 = Some poses1 ->
  fst (Depth.predict_observation state1 noise1 delta_time1 w) = Some obs1 ->
  let dimension := Depth.pose_state_dimension_ (Depth.this w) in
  let image1 := render_image (Depth.scene (Depth.renderer_ w)) poses1 in
  let w1 := snd (Depth.predict_observation state1 noise1 delta_time1 w) in
  exists internal1 : Depth.Vector,
    Depth.convert_from dimension 0 image1 state1 = Some internal1
    /\ (forall (i : nat) (pixel : Float),
          image1 !! i = Some pixel ->
          internal1 !! (2 * i + 1)%nat = state1 !! (dimension + i)%nat)
    /\ (forall scene' : Scene,
          Depth.predict_observation state2 noise2 delta_time2 (Depth.set_scene scene' w1)
          = (Depth.camera_predict_observation (camera w) internal1 noise2 delta_time2,
             Depth.set_scene scene' w1))
    /\ (forall poses2 : Depth.Vector,
          Depth.topRows dimension state2 = Some poses2 ->
          fst (Depth.predict_observation state2 noise2 delta_time2
                 (snd (Depth.clear_cache w1)))
          = (internal2 ← Depth.convert_from dimension 0
                           (render_image (Depth.scene (Depth.renderer_ w)) poses2) state2;
             Depth.camera_predict_observation (camera w) internal2 noise2 delta_time2)).
Proof.
  intros Hcount Hpose1 Hpose2 Hfind Hposes1 Hobs dimension image1 w1.
  assert (Hrun := predict_observation_miss _ _ noise1 _ _ delta_time1
                    Hpose1 Hfind Hposes1).
  fold dimension image1 in Hrun.
  destruct (Depth.convert_from dimension 0 image1 state1) as [internal1|] eqn:Hconv.
  2: { rewrite Hrun in Hobs. discriminate. }
  destruct (Depth.key_match pose pose) eqn:Hself.
  2: { rewrite Hrun in Hobs. cbn in Hobs.
       rewrite camera_predict_observation_empty in Hobs by done. discriminate. }
  assert (Hw1 : w1 = Depth.with_cache (cache w ++ [(pose, internal1)])
                                      (Depth.after_render poses1 w)).
  { unfold w1. rewrite Hrun. reflexivity. }
  exists internal1. split; [reflexivity|]. split; [|split].
  - intros i pixel Hi.
    destruct (convert_from_rows _ _ _ _ _ _ _ Hconv Hi) as (_ & Hrow & _).
    exact Hrow.
  - intros scene'.
    rewrite (predict_observation_hit _ state2 noise2 pose delta_time2
               (length (cache w)) pose internal1); [ | done | | ].
    + rewrite Hw1. reflexivity.
    + rewrite Hw1. cbn. rewrite cache_find_app_None by done.
      cbn. rewrite Hself. cbn. rewrite Nat.add_0_r. reflexivity.
    + rewrite Hw1. cbn. unfold Depth.Cache in *.
      apply list_lookup_middle. reflexivity.
  - intros poses2 Hposes2.
    rewrite (predict_observation_miss (snd (Depth.clear_cache w1)) state2 noise2
               pose poses2 delta_time2);
      [ | done | reflexivity | rewrite Hw1; exact Hposes2 ].
    rewrite Hw1. cbn.
    fold dimension.
    destruct (Depth.convert_from dimension 0 _ state2); [|reflexivity].
    rewrite Hself. reflexivity.
Qed.

(** C3, amended: the factor of the noise in the first component is the
    [(0,0)] entry of the covariance, a variance.  The depth model's
    constructor sets the covariance of its pixel model to the identity
    times [camera_sigma^2 + model_sigma^2], [predict_observation] of the
    pixel model returns [depth + exp(feature) * covariance * noise] as first
    component, and neither [predict_observation] nor [clear_cache] of the
    depth model writes the camera model that holds the covariance. *)
Theorem pixel_noise_scale_is_variance (renderer : Depth.Renderer)
    (camera_sigma model_sigma : Scalar) (pose_state_dimension state_dimension : nat)
    (res_rows res_cols : Z) (w : World) :
  Depth.new renderer camera_sigma model_sigma pose_state_dimension state_dimension
            res_rows res_cols = Some w ->
  let variance := add (mul camera_sigma camera_sigma) (mul model_sigma model_sigma) in
  let pixel := Depth.local_obsrv_model (camera w) in
  Pixel.covariance pixel = mul one variance
  /\ (forall depth feature noise delta_time : Scalar,
        fst (Pixel.predict_observation pixel (depth, feature) noise delta_time)
        = add depth (mul (mul (exp feature) (mul one variance)) noise))
  /\ (forall (w0 : World) (state noise : Depth.Vector) (delta_time : Scalar),
        camera (snd (Depth.predict_observation state noise delta_time w0)) = camera w0)
  /\ (forall w0 : World, camera (snd (Depth.clear_cache w0)) = camera w0).
Proof.
  unfold Depth.new. intros Hnew. cbv zeta in Hnew.
  destruct (decide (_ /\ _)) as [_|]; [|discriminate].
  destruct (decide _) as [_|]; [|discriminate].
  injection Hnew as <-. cbn.
  split; [reflexivity|]. split; [reflexivity|]. split.
  - intros w0 state noise delta_time. apply predict_observation_camera.
  - reflexivity.
Qed.

End DepthFacts.

(** *** The depth model on binary64 inputs *)

Section DepthRuns.
Import Double.
Local Open Scope float_scope.

Lemma depth_world_new :
  Depth.new renderer0 3 4 6 8 1 2 = Some depth_world.
Proof. reflexivity. Qed.

Lemma pixel_noise_scale_is_variance_witness :
  Pixel.covariance (Depth.local_obsrv_model
                      (Depth.camera_obsrv_model_ (Depth.this depth_world)))
  = mul one (add (mul 3 3) (mul 4 4)).
Proof.
  exact (proj1 (pixel_noise_scale_is_variance renderer0 3 4 6 8 1 2 depth_world
                  depth_world_new)).
Defined.

(** C3 as stated fails: with camera noise [3] and model noise [4] the noise
    has variance [25] and standard deviation [5]; for depth [0], occlusion
    feature [0] and noise [1] the first component is [0 + exp 0 * 25 * 1 =
    25], not [0 + exp 0 * 5 * 1 = 5]. *)
Lemma pixel_noise_scale_is_not_standard_deviation :
  let pixel := Depth.local_obsrv_model
                 (Depth.camera_obsrv_model_ (Depth.this depth_world)) in
  Depth.new renderer0 3 4 6 8 1 2 = Some depth_world
  /\ sqrt (Pixel.covariance pixel) = 5
  /\ fst (Pixel.predict_observation pixel (0, 0) 1 1) = 25
  /\ add 0 (mul (mul (exp 0) (sqrt (Pixel.covariance pixel))) 1) = 5
  /\ fst (Pixel.predict_observation pixel (0, 0) 1 1)
     <> add 0 (mul (mul (exp 0) (sqrt (Pixel.covariance pixel))) 1).
Proof.
  cbv zeta. repeat split; try (vm_compute; reflexivity).
  intros Heq. apply (f_equal (PrimFloat.eqb 25)) in Heq.
  vm_compute in Heq. discriminate.
Qed.

(** The first call for [state_a] renders and returns; [state_b] has the
    same pose and other occlusion features. *)
Lemma depth_world_first_call :
  fst (Depth.predict_observation state_a noise_a 1 depth_world)
  = Some [26; 676; 32; 1024].
Proof. vm_compute. reflexivity. Qed.

Lemma predict_observation_cached_witness :
  let w1 := snd (Depth.predict_observation state_a noise_a 1 depth_world) in
  Depth.predict_observation state_b noise_a 1 (Depth.set_scene [2; 2] w1)
  = (Some [26; 676; 32; 1024], Depth.set_scene [2; 2] w1).
Proof.
  exact (proj1 (predict_observation_cached depth_world state_a state_b noise_a 1
                  [26; 676; 32; 1024]
                  (le_S 1 1 (le_n 1)) eq_refl depth_world_first_call)
               [2; 2]).
Defined.

Lemma predict_observation_distinct_poses_witness :
  let w1 := snd (Depth.predict_observation state_a noise_a 1 depth_world) in
  let w2 := snd (Depth.predict_observation state_c noise_a 1 w1) in
  Depth.render_calls (Depth.renderer_ w1) = 1%nat
  /\ Depth.render_calls (Depth.renderer_ w2) = 2%nat
  /\ exists (i j : nat) (internal1 internal2 : list float),
       i <> j
       /\ Depth.predictions_cache_ (Depth.this w2) !! i
          = Some ([0; 0; 0; 0; 0; 0], internal1)
       /\ Depth.predictions_cache_ (Depth.this w2) !! j
          = Some ([0.5; 0; 0; 0; 0; 0], internal2).
Proof.
  exact (predict_observation_distinct_poses depth_world state_a state_c
           noise_a noise_a [0; 0; 0; 0; 0; 0] [0.5; 0; 0; 0; 0; 0]
           [0; 0; 0; 0; 0; 0] [0.5; 0; 0; 0; 0; 0] 1 1 0 0 0.5
           eq_refl eq_refl eq_refl eq_refl eq_refl eq_refl eq_refl eq_refl eq_refl).
Defined.

Lemma predict_observation_hit_features_witness :
  let w1 := snd (Depth.predict_observation state_a noise_a 1 depth_world) in
  exists internal1 : list float,
    internal1 = [1; 0; 7; 0]
    /\ Depth.predict_observation state_b noise_a 1 (Depth.set_scene [2; 2] w1)
       = (Depth.camera_predict_observation
            (Depth.camera_obsrv_model_ (Depth.this depth_world)) internal1 noise_a 1,
          Depth.set_scene [2; 2] w1).
Proof.
  destruct (predict_observation_hit_features depth_world state_a state_b
              noise_a noise_a [0; 0; 0; 0; 0; 0] [0; 0; 0; 0; 0; 0]
              [26; 676; 32; 1024] 1 1
              (le_S 1 1 (le_n 1)) eq_refl eq_refl eq_refl eq_refl
              depth_world_first_call)
    as (internal1 & Hconv & _ & Hhit & _).
  exists internal1. split.
  - injection Hconv as <-. reflexivity.
  - apply Hhit.
Defined.

End DepthRuns.

(** ** Continuous occlusion process model *)

Section OcclusionFacts.
Context {Scalar Generator : Type}.
Context `{Arith Scalar} `{Occlusion Scalar Generator}.

Local Abbreviation Model :=
  (ContinuousOcclusion.ContinuousOcclusionProcessModel (Scalar := Scalar)).

(** [condition] returns exactly when neither the occlusion it receives nor
    the mean it draws is NaN. *)
Lemma condition_returned (m m' : Model) (delta_time occlusion : Scalar)
    (g : Generator) :
  ContinuousOcclusion.outcome (ContinuousOcclusion.condition m delta_time occlusion g)
  = ContinuousOcclusion.Returned m' ->
  isnan occlusion = false
  /\ isnan (fst (ContinuousOcclusion.mean_sample
                   (ContinuousOcclusion.mean_condition
                      (ContinuousOcclusion.mean_ m) delta_time (sigmoid occlusion)) g))
     = false.
Proof.
  unfold ContinuousOcclusion.condition, ContinuousOcclusion.State.
  destruct (isnan occlusion); [discriminate|].
  destruct (ContinuousOcclusion.mean_sample _ g) as [mean g']. cbn [fst].
  destruct (isnan mean); [discriminate|]. auto.
Qed.

(** C4, amended: a NaN does not come back to the caller as an error
    value.  When [condition] receives a NaN occlusion it prints one line and
    ends the process with [exit(-1)], before anything is drawn; when the
    value [map_standard_normal] computes is NaN it does the same; and a
    value [map_standard_normal] does return is not NaN. *)
Theorem nan_occlusion_exits (m : Model) (delta_time occlusion sample : Scalar)
    (g : Generator) :
  (isnan occlusion = true ->
   ContinuousOcclusion.condition m delta_time occlusion g
   = {| ContinuousOcclusion.stdout :=
          [ContinuousOcclusion.Text "error: received nan occlusion in process model";
           ContinuousOcclusion.Endl];
        ContinuousOcclusion.generator := g;
        ContinuousOcclusion.outcome := ContinuousOcclusion.Exited (-1) |})
  /\ (isnan (logit (ContinuousOcclusion.tg_map_standard_normal
                      (ContinuousOcclusion.truncated_gaussian_ m) sample)) = true ->
      ContinuousOcclusion.map_standard_normal m sample g
      = {| ContinuousOcclusion.stdout :=
             [ContinuousOcclusion.Text "error: produced nan occlusion in process model";
              ContinuousOcclusion.Endl];
           ContinuousOcclusion.generator := g;
           ContinuousOcclusion.outcome := ContinuousOcclusion.Exited (-1) |})
  /\ (forall l : Scalar,
        ContinuousOcclusion.outcome (ContinuousOcclusion.map_standard_normal m sample g)
        = ContinuousOcclusion.Returned l ->
        isnan l = false).
Proof.
  split; [|split].
  - intros Hnan. unfold ContinuousOcclusion.condition, ContinuousOcclusion.State.
    rewrite Hnan. reflexivity.
  - intros Hnan. unfold ContinuousOcclusion.map_standard_normal.
    rewrite Hnan. reflexivity.
  - intros l. unfold ContinuousOcclusion.map_standard_normal.
    destruct (isnan (logit _)) eqn:Hnan; cbn; [discriminate|].
    intros [= <-]. exact Hnan.
Qed.

End OcclusionFacts.

(** *** The occlusion model on binary64 inputs *)

Section OcclusionRuns.
Import Double.
Local Open Scope float_scope.

Lemma nan_occlusion_exits_witness :
  ContinuousOcclusion.outcome
    (ContinuousOcclusion.condition occlusion_model 1 nan draws)
  = ContinuousOcclusion.Exited (-1).
Proof.
  exact (f_equal ContinuousOcclusion.outcome
           (proj1 (nan_occlusion_exits occlusion_model 1 nan 0 draws) eq_refl)).
Defined.

(** C4 as stated fails: handed a NaN occlusion, [condition] does not return
    to its caller, with an error value or otherwise; the process exits with
    status [-1] after one line on [std::cout]. *)
Lemma nan_occlusion_is_not_returned :
  isnan nan = true
  /\ ContinuousOcclusion.stdout
       (ContinuousOcclusion.condition occlusion_model 1 nan draws)
     = [ContinuousOcclusion.Text "error: received nan occlusion in process model";
        ContinuousOcclusion.Endl]
  /\ ContinuousOcclusion.outcome
       (ContinuousOcclusion.condition occlusion_model 1 nan draws)
     = ContinuousOcclusion.Exited (-1)
  /\ ~ (exists m' : ContinuousOcclusion.ContinuousOcclusionProcessModel,
         ContinuousOcclusion.outcome
           (ContinuousOcclusion.condition occlusion_model 1 nan draws)
         = ContinuousOcclusion.Returned m').
Proof.
  repeat split; try reflexivity.
  intros [m' Hm']. vm_compute in Hm'. discriminate.
Qed.

End OcclusionRuns.

(** ** Brownian object motion model *)

Section BrownianFacts.
Context {Scalar Matrix33 Matrix43 Process Moment : Type}.
Context `{Arith Scalar} `{Geometry Scalar Matrix33 Matrix43}
        `{Integrator Scalar Process Moment}.

Local Abbreviation Model :=
  (Brownian.BrownianObjectMotionModel
     (Scalar := Scalar) (Matrix43 := Matrix43) (Process := Process)).
Local Abbreviation Body := (Brownian.Body (Scalar := Scalar)).

(** *** Loops *)


Lemma loop_invariant {A : Type} (P : nat -> A -> Prop) (body : nat -> A -> option A)
    (count start : nat) (a a' : A) :
  P start a ->
  (forall i x x', (start <= i < start + count)%nat ->
                  P i x -> body i x = Some x' -> P (S i) x') ->
  Brownian.loop body count start a = Some a' ->
  P (start + count)%nat a'.
Proof.
  revert start a. induction count as [|count IH]; intros start a Ha Hstep; cbn.
  - intros [= <-]. rewrite Nat.add_0_r. exact Ha.
  - destruct (body start a) as [x|] eqn:Hbody; [|done]. cbn. intros Hloop.
    replace (start + S count)%nat with (S start + count)%nat by lia.
    apply (IH (S start) x).
    + apply (Hstep start a x); [lia|done|done].
    + intros i y y' Hi. apply Hstep. lia.
    + exact Hloop.
Qed.



(** *** [condition] forgets what the model was conditioned on before *)

(** Two integrators are alike when conditioning makes them equal. *)
Local Abbreviation alike :=
  (fun p1 p2 : Process =>
     forall dt x u, process_condition p1 dt x u = process_condition p2 dt x u).

(** Two models in step after [k] turns of the loop of [condition] over a
    state of [n] bodies: the same state and parameters, integrators that
    are alike, and the same entries below [k]. *)
Local Abbreviation in_step :=
  (fun (n k : nat) (m1 m2 : Model) =>
     Brownian.state_ m1 = Brownian.state_ m2
     /\ length (Brownian.state_ m1) = n
     /\ Brownian.rotation_center_ m1 = Brownian.rotation_center_ m2
     /\ length (Brownian.quaternion_map_ m1) = length (Brownian.quaternion_map_ m2)
     /\ take k (Brownian.quaternion_map_ m1) = take k (Brownian.quaternion_map_ m2)
     /\ Forall2 alike (Brownian.linear_process_ m1) (Brownian.linear_process_ m2)
     /\ take k (Brownian.linear_process_ m1) = take k (Brownian.linear_process_ m2)
     /\ Forall2 alike (Brownian.angular_process_ m1) (Brownian.angular_process_ m2)
     /\ take k (Brownian.angular_process_ m1) = take k (Brownian.angular_process_ m2)).





(** *** What [condition] and [map_standard_normal] leave at index [i] *)

(** Entry [j] of model [mk] holds body [b] as [condition] leaves it, for the
    parameters of [m]. *)
Local Abbreviation conditioned :=
  (fun (m : Model) (delta_time : Scalar) (control : list Scalar)
       (j : nat) (b : Body) (mk : Model) =>
     exists c linear angular linear_control angular_control,
       Brownian.rotation_center_ m !! j = Some c
       /\ Brownian.linear_process_ m !! j = Some linear
       /\ Brownian.angular_process_ m !! j = Some angular
       /\ Brownian.middleRows3 (j * Brownian.DIMENSION_PER_OBJECT) control
          = Some linear_control
       /\ Brownian.middleRows3 (j * Brownian.DIMENSION_PER_OBJECT + 3) control
          = Some angular_control
       /\ Brownian.state_ mk !! j = Some (Brownian.internal c b)
       /\ Brownian.quaternion_map_ mk !! j
          = Some (quaternion_matrix (Brownian.orientation b))
       /\ Brownian.linear_process_ mk !! j
          = Some (process_condition linear delta_time
                    (Brownian.zero3, Brownian.internal_linear_velocity c b)
                    linear_control)
       /\ Brownian.angular_process_ mk !! j
          = Some (process_condition angular delta_time
                    (Brownian.zero3, Brownian.angular_velocity b)
                    angular_control)).

Lemma condition_lookup (m m' : Model) (delta_time : Scalar) (state : Brownian.State)
    (control : list Scalar) (i : nat) (b : Body) :
  Brownian.condition m delta_time state control = Some m' ->
  state !! i = Some b ->
  conditioned m delta_time control i b m'
  /\ Brownian.rotation_center_ m' = Brownian.rotation_center_ m
  /\ length (Brownian.state_ m') = length state.
Proof.
  intros Hcondition Hb. unfold Brownian.condition in Hcondition.
  pose (P := fun (k : nat) (mk : Model) =>
    Brownian.rotation_center_ mk = Brownian.rotation_center_ m
    /\ length (Brownian.state_ mk) = length state
    /\ (forall j, (k <= j)%nat ->
          Brownian.state_ mk !! j = state !! j
          /\ Brownian.linear_process_ mk !! j = Brownian.linear_process_ m !! j
          /\ Brownian.angular_process_ mk !! j = Brownian.angular_process_ m !! j)
    /\ (forall j bj, (j < k)%nat -> state !! j = Some bj ->
          conditioned m delta_time control j bj mk)).
  assert (HP : P (0 + length state)%nat m').
  { eapply (loop_invariant P); [ | | exact Hcondition ].
    { repeat split; try done. intros j bj Hj. lia. }
    intros k mk mk' _ HPk. unfold P in HPk |- *.
    destruct HPk as (Hc & Hn & Hge & Hlt).
    unfold Brownian.condition_body.
    destruct (Hge k ltac:(lia)) as (Hsk & Hlk & Hak).
    destruct (Brownian.state_ mk !! k) as [bk|] eqn:Hbk; cbn; [|done].
    destruct (Brownian.quaternion_map_ mk !! k) as [Qk|] eqn:HQk; cbn; [|done].
    destruct (Brownian.rotation_center_ mk !! k) as [c|] eqn:Hck; cbn; [|done].
    destruct (Brownian.linear_process_ mk !! k) as [l|] eqn:Hl; cbn; [|done].
    destruct (Brownian.middleRows3 (k * Brownian.DIMENSION_PER_OBJECT) control)
      as [lu|] eqn:Hlu; cbn; [|done].
    destruct (Brownian.angular_process_ mk !! k) as [a|] eqn:Ha; cbn; [|done].
    destruct (Brownian.middleRows3 (k * Brownian.DIMENSION_PER_OBJECT + 3) control)
      as [au|] eqn:Hau; cbn; [|done].
    intros [= <-]. cbn.
    unfold Brownian.State in *.
    split; [exact Hc|]. split; [rewrite length_insert; exact Hn|]. split.
    - intros j Hj. rewrite !list_lookup_insert_ne by lia. apply Hge. lia.
    - intros j bj Hj Hbj.
      destruct (decide (j = k)) as [->|Hjk].
      + rewrite Hbj in Hsk. injection Hsk as ->.
        exists c, l, a, lu, au.
        apply lookup_lt_Some in Hbk as Hbk', HQk as HQk', Hl as Hl', Ha as Ha'.
        rewrite !list_lookup_insert_eq by done.
        rewrite <- Hc, <- Hlk, <- Hak. repeat split; done.
      + destruct (Hlt j bj ltac:(lia) Hbj)
          as (c' & l' & a' & lu' & au' & ? & ? & ? & ? & ? & ? & ? & ? & ?).
        exists c', l', a', lu', au'.
        rewrite !list_lookup_insert_ne by done. repeat split; done. }
  destruct HP as (Hc & Hn & _ & Hlt).
  split; [|split; done].
  apply Hlt; [|done]. apply lookup_lt_Some in Hb. cbn. exact Hb.
Qed.

Lemma map_standard_normal_lookup (fresh : Body) (m : Model) (sample : list Scalar)
    (new_state : Brownian.State) (i : nat) (b : Body) :
  Brownian.map_standard_normal fresh m sample = Some new_state ->
  Brownian.state_ m !! i = Some b ->
  exists position_noise orientation_noise linear angular Q c,
    Brownian.middleRows3 (i * Brownian.DIMENSION_PER_OBJECT) sample
    = Some position_noise
    /\ Brownian.middleRows3 (i * Brownian.DIMENSION_PER_OBJECT + 3) sample
       = Some orientation_noise
    /\ Brownian.linear_process_ m !! i = Some linear
    /\ Brownian.angular_process_ m !! i = Some angular
    /\ Brownian.quaternion_map_ m !! i = Some Q
    /\ Brownian.rotation_center_ m !! i = Some c
    /\ new_state !! i
       = Some (Brownian.external c Q linear angular
                 position_noise orientation_noise b).
Proof.
  intros Hmap Hb. unfold Brownian.map_standard_normal in Hmap.
  pose (P := fun (k : nat) (ns : Brownian.State) =>
    length ns = length (Brownian.state_ m)
    /\ (forall j bj, (j < k)%nat -> Brownian.state_ m !! j = Some bj ->
          exists position_noise orientation_noise linear angular Q c,
            Brownian.middleRows3 (j * Brownian.DIMENSION_PER_OBJECT) sample
            = Some position_noise
            /\ Brownian.middleRows3 (j * Brownian.DIMENSION_PER_OBJECT + 3) sample
               = Some orientation_noise
            /\ Brownian.linear_process_ m !! j = Some linear
            /\ Brownian.angular_process_ m !! j = Some angular
            /\ Brownian.quaternion_map_ m !! j = Some Q
            /\ Brownian.rotation_center_ m !! j = Some c
            /\ ns !! j
               = Some (Brownian.external c Q linear angular
                         position_noise orientation_noise bj))).
  assert (HP : P (0 + length (Brownian.state_ m))%nat new_state).
  { eapply (loop_invariant P); [ | | exact Hmap ].
    { split; [apply length_replicate|]. intros j bj Hj. lia. }
    intros k ns ns' _ HPk. unfold P in HPk |- *.
    destruct HPk as (Hn & Hlt).
    unfold Brownian.map_body.
    destruct (Brownian.middleRows3 (k * Brownian.DIMENSION_PER_OBJECT) sample)
      as [pn|] eqn:Hpn; cbn; [|done].
    destruct (Brownian.middleRows3 (k * Brownian.DIMENSION_PER_OBJECT + 3) sample)
      as [on|] eqn:Hon; cbn; [|done].
    destruct (Brownian.linear_process_ m !! k) as [l|] eqn:Hl; cbn; [|done].
    destruct (Brownian.angular_process_ m !! k) as [a|] eqn:Ha; cbn; [|done].
    destruct (ns !! k) as [old|] eqn:Hold; cbn; [|done].
    destruct (Brownian.state_ m !! k) as [bk|] eqn:Hbk; cbn; [|done].
    destruct (Brownian.quaternion_map_ m !! k) as [Q|] eqn:HQ; cbn; [|done].
    destruct (Brownian.rotation_center_ m !! k) as [c|] eqn:Hc; cbn; [|done].
    intros [= <-]. unfold Brownian.State in *.
    split; [rewrite length_insert; exact Hn|].
    intros j bj Hj Hbj.
    destruct (decide (j = k)) as [->|Hjk].
    - rewrite Hbj in Hbk. injection Hbk as ->.
      exists pn, on, l, a, Q, c.
      apply lookup_lt_Some in Hold.
      rewrite list_lookup_insert_eq by done. repeat split; done.
    - destruct (Hlt j bj ltac:(lia) Hbj)
        as (pn' & on' & l' & a' & Q' & c' & ? & ? & ? & ? & ? & ? & ?).
      exists pn', on', l', a', Q', c'.
      rewrite list_lookup_insert_ne by done. repeat split; done. }
  destruct HP as (_ & Hlt). apply Hlt; [|done].
  apply lookup_lt_Some in Hb. cbn. exact Hb.
Qed.


(** The prediction for body [i], in terms of the state handed in and the
    members of the model before the call. *)
Lemma predict_state_lookup (fresh : Body) (m m' : Model) (delta_time : Scalar)
    (state new_state : Brownian.State) (noise input : list Scalar)
    (i : nat) (b : Body) :
  Brownian.predict_state fresh m delta_time state noise input = Some (m', new_state) ->
  state !! i = Some b ->
  exists c linear angular linear_control angular_control
         position_noise orientation_noise,
    Brownian.rotation_center_ m !! i = Some c
    /\ Brownian.linear_process_ m !! i = Some linear
    /\ Brownian.angular_process_ m !! i = Some angular
    /\ Brownian.middleRows3 (i * Brownian.DIMENSION_PER_OBJECT) input
       = Some linear_control
    /\ Brownian.middleRows3 (i * Brownian.DIMENSION_PER_OBJECT + 3) input
       = Some angular_control
    /\ Brownian.middleRows3 (i * Brownian.DIMENSION_PER_OBJECT) noise
       = Some position_noise
    /\ Brownian.middleRows3 (i * Brownian.DIMENSION_PER_OBJECT + 3) noise
       = Some orientation_noise
    /\ Brownian.state_ m' !! i = Some (Brownian.internal c b)
    /\ new_state !! i
       = Some (Brownian.external c
                 (quaternion_matrix (Brownian.orientation b))
                 (process_condition linear delta_time
                    (Brownian.zero3, Brownian.internal_linear_velocity c b)
                    linear_control)
                 (process_condition angular delta_time
                    (Brownian.zero3, Brownian.angular_velocity b)
                    angular_control)
                 position_noise orientation_noise
                 (Brownian.internal c b)).
Proof.
  unfold Brownian.predict_state. intros Hpredict Hb.
  destruct (Brownian.condition m delta_time state input) as [mc|] eqn:Hcondition;
    cbn in Hpredict; [|done].
  destruct (Brownian.map_standard_normal fresh mc noise) as [ns|] eqn:Hmap;
    cbn in Hpredict; [|done].
  injection Hpredict as <- <-.
  destruct (condition_lookup _ _ _ _ _ _ _ Hcondition Hb)
    as ((c & l & a & lu & au & Hc & Hl & Ha & Hlu & Hau & Hs' & HQ' & Hl' & Ha')
        & Hc' & _).
  destruct (map_standard_normal_lookup _ _ _ _ _ _ Hmap Hs')
    as (pn & on & l2 & a2 & Q2 & c2 & Hpn & Hon & Hl2 & Ha2 & HQ2 & Hc2 & Hnew).
  rewrite Hc' in Hc2.
  assert (c2 = c) as -> by congruence.
  assert (Q2 = quaternion_matrix (Brownian.orientation b)) as -> by congruence.
  assert (l2 = process_condition l delta_time
                 (Brownian.zero3, Brownian.internal_linear_velocity c b) lu)
    as -> by congruence.
  assert (a2 = process_condition a delta_time
                 (Brownian.zero3, Brownian.angular_velocity b) au)
    as -> by congruence.
  exists c, l, a, lu, au, pn, on. repeat split; done.
Qed.

(** C2, amended: with rotation center zero the prediction for a body
    is the one of the dynamics without change of representation, for any
    noise and control, provided the four corrections of the change of
    representation leave their operand as it is: adding [R * 0] to the
    position in [condition] and subtracting [R' * 0] in
    [map_standard_normal], and adding the cross product of angular velocity
    and position to the linear velocity in [condition] and subtracting that
    of the new angular velocity in [map_standard_normal].  The cross
    products do not vanish with the rotation center. *)
Theorem zero_pivot_round_trip (fresh : Body) (m m' : Model) (delta_time : Scalar)
    (state new_state : Brownian.State) (noise input : list Scalar)
    (i : nat) (b : Body) (linear angular : Process)
    (linear_control angular_control position_noise orientation_noise : Vector3 Scalar) :
  Brownian.predict_state fresh m delta_time state noise input = Some (m', new_state) ->
  state !! i = Some b ->
  Brownian.rotation_center_ m !! i = Some Brownian.zero3 ->
  Brownian.linear_process_ m !! i = Some linear ->
  Brownian.angular_process_ m !! i = Some angular ->
  Brownian.middleRows3 (i * Brownian.DIMENSION_PER_OBJECT) input = Some linear_control ->
  Brownian.middleRows3 (i * Brownian.DIMENSION_PER_OBJECT + 3) input = Some angular_control ->
  Brownian.middleRows3 (i * Brownian.DIMENSION_PER_OBJECT) noise = Some position_noise ->
  Brownian.middleRows3 (i * Brownian.DIMENSION_PER_OBJECT + 3) noise = Some orientation_noise ->
  let free := Brownian.pivot_free_body delta_time linear angular
                linear_control angular_control position_noise orientation_noise b in
  Brownian.vadd (Brownian.position b)
                (mul33 (rotation_matrix (Brownian.orientation b)) Brownian.zero3)
  = Brownian.position b ->
  Brownian.vsub (Brownian.position free)
                (mul33 (rotation_matrix (Brownian.orientation free)) Brownian.zero3)
  = Brownian.position free ->
  Brownian.vadd (Brownian.linear_velocity b)
                (Brownian.cross (Brownian.angular_velocity b) (Brownian.position b))
  = Brownian.linear_velocity b ->
  Brownian.vsub (Brownian.linear_velocity free)
                (Brownian.cross (Brownian.angular_velocity free) (Brownian.position b))
  = Brownian.linear_velocity free ->
  new_state !! i = Some free.
Proof.
  intros Hpredict Hb Hc Hl Ha Hlu Hau Hpn Hon free Hp_in Hp_out Hv_in Hv_out.
  destruct (predict_state_lookup _ _ _ _ _ _ _ _ _ _ Hpredict Hb)
    as (c & l & a & lu & au & pn & on
        & Hc' & Hl' & Ha' & Hlu' & Hau' & Hpn' & Hon' & _ & Hnew).
  rewrite Hnew. f_equal.
  assert (c = Brownian.zero3) as -> by congruence.
  assert (l = linear) as -> by congruence.
  assert (a = angular) as -> by congruence.
  assert (lu = linear_control) as -> by congruence.
  assert (au = angular_control) as -> by congruence.
  assert (pn = position_noise) as -> by congruence.
  assert (on = orientation_noise) as -> by congruence.
  assert (Hinternal : Brownian.internal Brownian.zero3 b = b).
  { unfold Brownian.internal, Brownian.internal_linear_velocity,
      Brownian.internal_position.
    rewrite Hp_in, Hv_in. destruct b; reflexivity. }
  unfold Brownian.internal_linear_velocity, Brownian.internal_position.
  rewrite Hinternal, Hp_in, Hv_in.
  unfold Brownian.external.
  change (process_map_standard_normal
            (process_condition linear delta_time
               (Brownian.zero3, Brownian.linear_velocity b) linear_control)
            position_noise).2
    with (Brownian.linear_velocity free).
  change (process_map_standard_normal
            (process_condition angular delta_time
               (Brownian.zero3, Brownian.angular_velocity b) angular_control)
            orientation_noise).2
    with (Brownian.angular_velocity free).
  change (Brownian.vadd (Brownian.position b)
            (process_map_standard_normal
               (process_condition linear delta_time
                  (Brownian.zero3, Brownian.linear_velocity b) linear_control)
               position_noise).1)
    with (Brownian.position free).
  change (normalized _) with (Brownian.orientation free).
  rewrite Hp_out, Hv_out. reflexivity.
Qed.

(** C9, amended: the call hands the new state back by value.  The
    filter's state object is the same after the call as before; what the
    call writes is the model, whose own copy [state_] holds the bodies of
    the filter's state in the representation about the rotation center. *)
Theorem predict_state_returns_by_value (fresh : Body) (delta_time : Scalar)
    (noise input : list Scalar) (o o' : Brownian.Objects) (returned : Brownian.State) :
  Brownian.call_predict_state fresh delta_time noise input o = Some (o', returned) ->
  Brownian.filter_state o' = Brownian.filter_state o
  /\ Brownian.predict_state fresh (Brownian.model o) delta_time
       (Brownian.filter_state o) noise input
     = Some (Brownian.model o', returned)
  /\ (forall (i : nat) (b : Body),
        Brownian.filter_state o !! i = Some b ->
        exists c,
          Brownian.rotation_center_ (Brownian.model o) !! i = Some c
          /\ Brownian.state_ (Brownian.model o') !! i = Some (Brownian.internal c b)).
Proof.
  unfold Brownian.call_predict_state. intros Hcall.
  destruct (Brownian.predict_state fresh (Brownian.model o) delta_time
              (Brownian.filter_state o) noise input) as [[m' new_state]|] eqn:Hpredict;
    cbn in Hcall; [|done].
  injection Hcall as <- <-. cbn.
  split; [reflexivity|]. split; [reflexivity|].
  intros i b Hb.
  destruct (predict_state_lookup _ _ _ _ _ _ _ _ _ _ Hpredict Hb)
    as (c & l & a & lu & au & pn & on & Hc & _ & _ & _ & _ & _ & _ & Hs & _).
  exists c. split; done.
Qed.

End BrownianFacts.

(** *** The motion model on binary64 inputs *)

Section BrownianRuns.
Import Double.
Local Open Scope float_scope.

Lemma zero_pivot_round_trip_witness :
  (r ← Brownian.predict_state resting motion_model 1 [moving] zeros6 zeros6;
   snd r !! 0%nat)
  = Some (Brownian.pivot_free_body 1 process0 process0
            origin3 origin3 origin3 origin3 moving).
Proof.
  destruct (Brownian.predict_state resting motion_model 1 [moving] zeros6 zeros6)
    as [[m' new_state]|] eqn:Hpredict.
  2: { vm_compute in Hpredict. discriminate Hpredict. }
  exact (zero_pivot_round_trip resting motion_model m' 1 [moving] new_state
           zeros6 zeros6 0 moving process0 process0
           origin3 origin3 origin3 origin3
           Hpredict eq_refl eq_refl eq_refl eq_refl eq_refl eq_refl eq_refl eq_refl
           eq_refl eq_refl eq_refl eq_refl).
Defined.

(** C2 as stated fails: rotation center, noise and control all zero, a body
    at [(1, 0, 0)] spinning about the third axis with angular velocity
    [(0, 0, 1)] and no linear velocity.  [condition] drives the linear
    integrator with the velocity [(0, 1, 0)], the cross product of angular
    velocity and position, and the prediction for [delta_time = 1] ends at
    [(1, 1, 0)]; without the change of representation the integrator is
    driven by no velocity and the body stays at [(1, 0, 0)]. *)
Lemma zero_pivot_spinning_body_drifts :
  Brownian.rotation_center_ motion_model = [Brownian.zero3]
  /\ (Brownian.position <$>
        (r ← Brownian.predict_state resting motion_model 1 [spinning] zeros6 zeros6;
         snd r !! 0%nat))
     = Some (vector3 1 1 0)
  /\ Brownian.position
       (Brownian.pivot_free_body 1 process0 process0
          origin3 origin3 origin3 origin3 spinning)
     = vector3 1 0 0
  /\ (Brownian.position <$>
        (r ← Brownian.predict_state resting motion_model 1 [spinning] zeros6 zeros6;
         snd r !! 0%nat))
     <> Some (Brownian.position
                (Brownian.pivot_free_body 1 process0 process0
                   origin3 origin3 origin3 origin3 spinning)).
Proof.
  repeat split; try (vm_compute; reflexivity).
  intros Heq.
  apply (f_equal (fun p => PrimFloat.eqb (default 0 (v1 <$> p)) 0)) in Heq.
  vm_compute in Heq. discriminate Heq.
Qed.

Lemma predict_state_returns_by_value_witness :
  exists (o' : Brownian.Objects) (returned : Brownian.State),
    Brownian.call_predict_state resting 1 zeros6 zeros6
      {| Brownian.filter_state := [moving]; Brownian.model := motion_model |}
    = Some (o', returned)
    /\ Brownian.filter_state o' = [moving].
Proof.
  destruct (Brownian.call_predict_state resting 1 zeros6 zeros6
              {| Brownian.filter_state := [moving]; Brownian.model := motion_model |})
    as [[o' returned]|] eqn:Hcall.
  2: { vm_compute in Hcall. discriminate Hcall. }
  exists o', returned. split; [reflexivity|].
  exact (proj1 (predict_state_returns_by_value resting 1 zeros6 zeros6 _ o' returned
                  Hcall)).
Defined.

(** C9 as stated fails: after the call the filter's state object still
    holds the body at [(1, 0, 0)]; the body at [(2, 0, 0)] is in the state
    the call returned. *)
Lemma predict_state_leaves_argument :
  let o := {| Brownian.filter_state := [moving]; Brownian.model := motion_model |} in
  exists (o' : Brownian.Objects) (returned : Brownian.State),
    Brownian.call_predict_state resting 1 zeros6 zeros6 o = Some (o', returned)
    /\ Brownian.position <$> Brownian.filter_state o' = [vector3 1 0 0]
    /\ Brownian.position <$> returned = [vector3 2 0 0]
    /\ Brownian.filter_state o' <> returned.
Proof.
  cbv zeta.
  destruct (Brownian.call_predict_state resting 1 zeros6 zeros6
              {| Brownian.filter_state := [moving]; Brownian.model := motion_model |})
    as [[o' returned]|] eqn:Hcall.
  2: { vm_compute in Hcall. discriminate Hcall. }
  exists o', returned. split; [reflexivity|].
  vm_compute in Hcall. injection Hcall as <- <-.
  split; [reflexivity|]. split; [reflexivity|].
  intros Heq.
  apply (f_equal (fun s => PrimFloat.eqb
                             (default 0 (v0 <$> (Brownian.position <$> s !! 0%nat))) 1))
    in Heq.
  vm_compute in Heq. discriminate Heq.
Qed.



End BrownianRuns.

(** ** The two phases: what [condition] depends on *)

Section ConditionFacts.
Context {Scalar Matrix33 Matrix43 Process Moment Generator : Type}.
Context `{Arith Scalar} `{Geometry Scalar Matrix33 Matrix43}
        `{Integrator Scalar Process Moment} `{Occlusion Scalar Generator}.



End ConditionFacts.

Section ConditionRuns.
Import Double.
Local Open Scope float_scope.


End ConditionRuns.

(** * Further properties *)

(** ** Depth observation model: sizes, growth of the cache, unmatched poses *)

Section DepthExtras.
Context {Scalar Float Scene : Type}.
Context `{Arith Scalar} `{Float32 Scalar Float} `{Hashing Scalar}
        `{Rendering Scalar Float Scene}.

Local Abbreviation World :=
  (Depth.World (Scalar := Scalar) (Float := Float) (Scene := Scene)).
Local Abbreviation cache w := (Depth.predictions_cache_ (Depth.this w)).
Local Abbreviation camera w := (Depth.camera_obsrv_model_ (Depth.this w)).
Local Abbreviation renders w := (Depth.render_calls (Depth.renderer_ w)).
Local Abbreviation dimension w := (Depth.pose_state_dimension_ (Depth.this w)).

Lemma convert_from_is_Some (d start : nat) (depth : list Float)
    (state : Depth.Vector) :
  is_Some (Depth.convert_from d start depth state)
  <-> depth = [] \/ (d + start + length depth <= length state)%nat.
Proof.
  revert start. induction depth as [|p depth IH]; intros start; cbn.
  - split; eauto.
  - destruct (state !! (d + start)%nat) as [feature|] eqn:Hfeature; cbn.
    + apply lookup_lt_Some in Hfeature.
      destruct (Depth.convert_from d (S start) depth state) as [rest|] eqn:Hrest; cbn.
      * assert (Hsome : is_Some (Depth.convert_from d (S start) depth state))
          by (rewrite Hrest; eauto).
        apply IH in Hsome. split; [intros _; right|eauto].
        destruct Hsome as [->|Hle]; cbn; lia.
      * split; [intros [? [=]]|]. intros [[=]|Hle].
        assert (Hsome : is_Some (Depth.convert_from d (S start) depth state))
          by (apply IH; right; lia).
        rewrite Hrest in Hsome. destruct Hsome as [? [=]].
    + apply lookup_ge_None in Hfeature.
      split; [intros [? [=]]|]. intros [[=]|Hle]. lia.
Qed.

Lemma convert_from_length (d start : nat) (depth : list Float)
    (state internal : Depth.Vector) :
  Depth.convert_from d start depth state = Some internal ->
  length internal = (2 * length depth)%nat.
Proof.
  revert start internal. induction depth as [|p depth IH]; intros start internal; cbn.
  - intros [= <-]. reflexivity.
  - destruct (state !! (d + start)%nat); cbn; [|done].
    destruct (Depth.convert_from d (S start) depth state) as [rest|] eqn:Hrest;
      cbn; [|done].
    intros [= <-]. cbn. rewrite (IH _ _ Hrest). lia.
Qed.

(** X1: [convert] stays inside the state exactly when the depth image is
    empty or the state has a row for every pixel behind its first
    [pose_state_dimension_] rows; otherwise it stops at the first row that
    is missing. *)
Theorem convert_bounds (w : World) (depth : list Float) (state : Depth.Vector)
    (entry : nat) :
  fst (Depth.convert depth state entry w) = Some tt
  <-> depth = [] \/ (dimension w + length depth <= length state)%nat.
Proof.
  rewrite <- (Nat.add_0_r (dimension w)), <- convert_from_is_Some.
  unfold Depth.convert, Depth.bind, Depth.get_model, Depth.lift, Depth.write_entry,
    Depth.put_model.
  destruct (Depth.convert_from _ 0 depth state) as [internal|]; cbn.
  - split; eauto.
  - split; [intros [=]|intros [? [=]]].
Qed.

(** X2: what [convert] stores.  When it returns, the entry it was given
    keeps its key and holds a vector of two rows per pixel: the rendered
    depth, or [7] where the rendering is infinite, and row
    [pose_state_dimension_ + i] of the state; the other entries of the cache
    and the renderer are as before. *)
Theorem convert_layout (w : World) (depth : list Float) (state key old : Depth.Vector)
    (entry : nat) :
  fst (Depth.convert depth state entry w) = Some tt ->
  cache w !! entry = Some (key, old) ->
  let w' := snd (Depth.convert depth state entry w) in
  exists internal : Depth.Vector,
    cache w' !! entry = Some (key, internal)
    /\ length internal = (2 * length depth)%nat
    /\ (forall (i : nat) (pixel : Float),
          depth !! i = Some pixel ->
          internal !! (2 * i)%nat
          = Some (to_scalar (if isinf pixel then seven else pixel))
          /\ internal !! (2 * i + 1)%nat = state !! (dimension w + i)%nat)
    /\ (forall j : nat, j <> entry -> cache w' !! j = cache w !! j)
    /\ Depth.renderer_ w' = Depth.renderer_ w.
Proof.
  unfold Depth.convert, Depth.bind, Depth.get_model, Depth.lift, Depth.write_entry,
    Depth.put_model.
  destruct (Depth.convert_from _ 0 depth state) as [internal|] eqn:Hconv; cbn;
    [|done].
  intros _ Hentry. exists internal. unfold Depth.Cache in *.
  split.
  { rewrite list_lookup_alter_eq, Hentry. reflexivity. }
  split; [exact (convert_from_length _ _ _ _ _ Hconv)|].
  split.
  { intros i pixel Hi.
    destruct (convert_from_rows _ _ _ _ _ _ _ Hconv Hi) as (Heven & Hodd & _).
    split; [exact Heven|exact Hodd]. }
  split; [|reflexivity].
  intros j Hj. rewrite list_lookup_alter_ne by done. reflexivity.
Qed.

(** X3: [predict_observation] only ever appends to the cache.  Whatever the
    call is given and however it ends, the entries present before are all
    still there, unchanged and at the same places; at most two entries are
    added, both under the pose of the state; [Render] is called at most
    once; the scene, the camera model and the two dimensions are left
    alone. *)
Theorem predict_observation_only_appends (w : World) (state noise : Depth.Vector)
    (delta_time : Scalar) :
  let w' := snd (Depth.predict_observation state noise delta_time w) in
  (exists extra : Depth.Cache,
     cache w' = cache w ++ extra
     /\ (length extra <= 2)%nat
     /\ Forall (fun e => Depth.topRows 6 state = Some (fst e)) extra)
  /\ (renders w <= renders w' <= S (renders w))%nat
  /\ Depth.scene (Depth.renderer_ w') = Depth.scene (Depth.renderer_ w)
  /\ camera w' = camera w
  /\ dimension w' = dimension w
  /\ Depth.state_dimension_ (Depth.this w') = Depth.state_dimension_ (Depth.this w).
Proof.
  cbn zeta.
  destruct (Depth.topRows 6 state) as [pose|] eqn:Hpose.
  2: { rewrite predict_observation_no_pose by done. cbn.
       split; [exists []; rewrite app_nil_r; auto|]. repeat split; lia. }
  destruct (Depth.cache_find pose (cache w)) as [i|] eqn:Hfind.
  { destruct (cache_find_Some _ _ _ Hfind) as (key & internal & Hentry & _).
    rewrite (predict_observation_hit _ _ _ _ _ _ _ _ Hpose Hfind Hentry). cbn.
    split; [exists []; rewrite app_nil_r; auto|]. repeat split; lia. }
  destruct (Depth.topRows (dimension w) state) as [poses|] eqn:Hposes.
  2: { rewrite (predict_observation_miss_no_poses _ _ _ _ _ Hpose Hfind Hposes). cbn.
       split; [exists [(pose, [])]; repeat split; auto|]. repeat split; lia. }
  rewrite (predict_observation_miss _ _ _ _ _ _ Hpose Hfind Hposes).
  destruct (Depth.convert_from _ 0 _ state) as [internal|];
    [destruct (Depth.key_match pose pose)|]; cbn.
  - split; [exists [(pose, internal)]; repeat split; auto|]. repeat split; lia.
  - split; [exists [(pose, internal); (pose, [])]; repeat split; auto|].
    repeat split; lia.
  - split; [exists [(pose, [])]; repeat split; auto|]. repeat split; lia.
Qed.

(** X4: a pose that does not compare equal to itself, as one with a NaN
    component, is never found again.  A call for it that reaches the
    renderer renders, leaves the pose without a matching entry, and, the
    camera having at least one pixel, returns no observation because the
    entry it reads back is a new, empty one; the next call for the same
    state renders again. *)
Theorem unmatched_pose_renders_every_time (w : World)
    (state noise noise' pose poses : Depth.Vector) (delta_time delta_time' : Scalar)
    (k : nat) (x : Scalar) :
  Depth.topRows 6 state = Some pose ->
  pose !! k = Some x -> equal x x = false ->
  Depth.cache_find pose (cache w) = None ->
  Depth.topRows (dimension w) state = Some poses ->
  (0 < Depth.count_local_models (camera w))%nat ->
  let w1 := snd (Depth.predict_observation state noise delta_time w) in
  let w2 := snd (Depth.predict_observation state noise' delta_time' w1) in
  fst (Depth.predict_observation state noise delta_time w) = None
  /\ Depth.cache_find pose (cache w1) = None
  /\ renders w1 = S (renders w)
  /\ renders w2 = S (S (renders w)).
Proof.
  intros Hpose Hk Hx Hfind Hposes Hcount w1 w2.
  assert (Hself : Depth.key_match pose pose = false).
  { unfold Depth.key_match.
    rewrite (matrix_equal_differ _ _ _ _ _ Hk Hk Hx). apply andb_false_r. }
  destruct (predict_observation_miss_world _ _ noise _ _ delta_time Hpose Hfind Hposes)
    as (Hr1 & _ & Hdim1 & internal1 & extra1 & Hc1 & Hextra1).
  fold w1 in Hr1, Hdim1, Hc1.
  assert (Hfind1 : Depth.cache_find pose (cache w1) = None).
  { rewrite Hc1, cache_find_app_None by done.
    rewrite (cache_find_no_match pose ((pose, internal1) :: extra1)); [done|].
    constructor; [exact Hself|].
    eapply Forall_impl; [exact Hextra1|]. intros e ->. exact Hself. }
  rewrite <- Hdim1 in Hposes.
  destruct (predict_observation_miss_world _ _ noise' _ _ delta_time' Hpose Hfind1 Hposes)
    as (Hr2 & _).
  fold w2 in Hr2. rewrite Hdim1 in Hposes.
  split; [|split; [exact Hfind1|split; [exact Hr1|rewrite Hr2, Hr1; reflexivity]]].
  rewrite (predict_observation_miss _ _ _ _ _ _ Hpose Hfind Hposes).
  destruct (Depth.convert_from _ 0 _ state); [|reflexivity].
  rewrite Hself. cbn. apply camera_predict_observation_empty. exact Hcount.
Qed.

Lemma predict_pixels_delta_time (local : Pixel.PixelObservationModel)
    (count i : nat) (state noise : Depth.Vector) (delta_time delta_time' : Scalar) :
  Depth.predict_pixels local count i state noise delta_time
  = Depth.predict_pixels local count i state noise delta_time'.
Proof.
  revert i. induction count as [|count IH]; intros i; [done|].
  cbn -[Nat.mul Nat.add].
  destruct (state !! (2 * i)%nat); cbn -[Nat.mul Nat.add]; [|done].
  destruct (state !! (2 * i + 1)%nat); cbn -[Nat.mul Nat.add]; [|done].
  destruct (noise !! i); cbn -[Nat.mul Nat.add]; [|done].
  rewrite (IH (S i)). reflexivity.
Qed.

Lemma bind_ext {A B : Type} (c : Depth.M A) (k k' : A -> Depth.M B) (w : World) :
  (forall a w', k a w' = k' a w') -> Depth.bind c k w = Depth.bind c k' w.
Proof.
  intros Hk. unfold Depth.bind. destruct (c w) as [[a|] w']; [apply Hk|done].
Qed.

(** X5: the elapsed time plays no part in an observation.  Neither the
    value [predict_observation] returns nor the world it leaves depends on
    [delta_time]; the pixel model never reads it. *)
Theorem predict_observation_ignores_delta_time (w : World)
    (state noise : Depth.Vector) (delta_time delta_time' : Scalar) :
  Depth.predict_observation state noise delta_time w
  = Depth.predict_observation state noise delta_time' w.
Proof.
  unfold Depth.predict_observation.
  repeat (apply bind_ext; intros ? ?).
  unfold Depth.lift, Depth.camera_predict_observation.
  rewrite (predict_pixels_delta_time _ _ _ _ _ delta_time delta_time').
  reflexivity.
Qed.

(** X6: the constructor.  It builds a model exactly when its three asserts
    pass, that is for positive [res_rows], [res_cols] and
    [state_dimension], and the [int] product [res_rows * res_cols] is not
    negative.  The model has that product as its number of pixels, a depth
    buffer of that size and an empty cache, and refers to the renderer it
    was given.  Where the product of the two numbers fits an [int], the
    model has [res_rows * res_cols] pixels, at least one. *)
Theorem new_depth_model (renderer : Depth.Renderer)
    (camera_sigma model_sigma : Scalar) (pose_state_dimension state_dimension : nat)
    (res_rows res_cols : Z) :
  let built := Depth.new renderer camera_sigma model_sigma
                 pose_state_dimension state_dimension res_rows res_cols in
  (is_Some built
   <-> (0 < res_rows)%Z /\ (0 < res_cols)%Z /\ (0 < state_dimension)%nat
       /\ (0 <= Depth.int_mul res_rows res_cols)%Z)
  /\ (forall w : World,
        built = Some w ->
        Depth.count_local_models (camera w)
        = Z.to_nat (Depth.int_mul res_rows res_cols)
        /\ length (Depth.depth_rendering_ (Depth.this w))
           = Depth.count_local_models (camera w)
        /\ cache w = []
        /\ dimension w = pose_state_dimension
        /\ Depth.renderer_ w = renderer
        /\ ((res_rows * res_cols < 2 ^ 31)%Z ->
            Depth.count_local_models (camera w) = Z.to_nat (res_rows * res_cols)
            /\ (0 < Depth.count_local_models (camera w))%nat)).
Proof.
  cbn zeta. unfold Depth.new. cbv zeta.
  destruct (decide (_ /\ _)) as [Hok|Hno].
  - destruct (decide _) as [Hpixels|Hnegative].
    + split; [split; [intros _; tauto|eauto]|].
      intros w [= <-]. cbn. rewrite length_replicate.
      do 5 (split; [reflexivity|]).
      intros Hfits. destruct Hok as (Hr & Hc & _).
      assert (Hproduct : Depth.int_mul res_rows res_cols = (res_rows * res_cols)%Z)
        by (unfold Depth.int_mul; rewrite Z.mod_small; nia).
      rewrite Hproduct. split; [reflexivity|nia].
    + split; [split; [intros [? [=]]|tauto]|]. intros w [=].
  - split; [split; [intros [? [=]]|tauto]|]. intros w [=].
Qed.

Lemma predict_pixels_is_Some (local : Pixel.PixelObservationModel)
    (count i : nat) (state noise : Depth.Vector) (delta_time : Scalar) :
  (2 * (i + count) <= length state)%nat ->
  (i + count <= length noise)%nat ->
  exists obs : Depth.Vector,
    Depth.predict_pixels local count i state noise delta_time = Some obs
    /\ length obs = (2 * count)%nat.
Proof.
  unfold Depth.Vector in *.
  revert i. induction count as [|count IH]; intros i Hstate Hnoise.
  - exists []. split; reflexivity.
  - cbn -[Nat.mul Nat.add]. unfold Depth.Vector in *.
    destruct (lookup_lt_is_Some_2 state (2 * i)%nat ltac:(lia)) as [depth ->].
    cbn -[Nat.mul Nat.add].
    destruct (lookup_lt_is_Some_2 state (2 * i + 1)%nat ltac:(lia)) as [feature ->].
    cbn -[Nat.mul Nat.add].
    unfold Pixel.Noise in *.
    destruct (lookup_lt_is_Some_2 noise i ltac:(lia)) as [n ->].
    cbn -[Nat.mul Nat.add].
    destruct (IH (S i) ltac:(lia) ltac:(lia)) as (rest & -> & Hrest).
    cbn -[Nat.mul Nat.add]. eexists. split; [reflexivity|]. cbn. lia.
Qed.

(** X7: the sizes that make a first call for a pose return.  Let the state
    have six rows, the pose compare equal to itself and have no entry, the
    renderer deliver one depth per pixel of the camera, the state have a row
    for every pixel behind its first [pose_state_dimension_] rows, and the
    noise have an entry per pixel.  Then [predict_observation] returns an
    observation of two rows per pixel; the renderer was handed the first
    [pose_state_dimension_] rows of the state and rendered once, and the
    cache has one entry more, of two rows per pixel. *)
Theorem predict_observation_returns (w : World) (state noise : Depth.Vector)
    (delta_time : Scalar) :
  let pose := take 6 state in
  let poses := take (dimension w) state in
  let count := Depth.count_local_models (camera w) in
  (6 <= length state)%nat ->
  Depth.key_match pose pose = true ->
  Depth.cache_find pose (cache w) = None ->
  length (render_image (Depth.scene (Depth.renderer_ w)) poses) = count ->
  (dimension w + count <= length state)%nat ->
  (count <= length noise)%nat ->
  exists obs internal : Depth.Vector,
    Depth.predict_observation state noise delta_time w
    = (Some obs,
       Depth.with_cache (cache w ++ [(pose, internal)]) (Depth.after_render poses w))
    /\ length obs = (2 * count)%nat
    /\ length internal = (2 * count)%nat.
Proof.
  intros pose poses count Hsix Hself Hfind Himage Hrows Hnoise.
  assert (Hpose : Depth.topRows 6 state = Some pose).
  { unfold Depth.topRows. destruct (decide _); [reflexivity|lia]. }
  assert (Hposes : Depth.topRows (dimension w) state = Some poses).
  { unfold Depth.topRows. destruct (decide _); [reflexivity|lia]. }
  rewrite (predict_observation_miss _ _ _ _ _ _ Hpose Hfind Hposes).
  fold poses.
  destruct (proj2 (convert_from_is_Some (dimension w) 0
                     (render_image (Depth.scene (Depth.renderer_ w)) poses) state))
    as [internal Hconv].
  { right. rewrite Himage. fold count. lia. }
  rewrite Hconv, Hself.
  apply convert_from_length in Hconv as Hlength. rewrite Himage in Hlength.
  destruct (predict_pixels_is_Some (Depth.local_obsrv_model (camera w))
              count 0 internal noise delta_time ltac:(lia) ltac:(lia))
    as (obs & Hobs & Hobs_length).
  exists obs, internal. unfold Depth.camera_predict_observation.
  fold count. rewrite Hobs. auto.
Qed.

(** X8: the key of the cache is the first six rows of the state, while the
    renderer is given its first [pose_state_dimension_] rows.  After a first
    call has created the entry of a pose and returned, a call for any state
    with the same first six rows returns the same observation from the
    cache, also when its further pose rows differ: the renderer still
    holds the rows and the image of the first state. *)
Theorem cache_key_is_first_six_rows (w : World)
    (state1 state2 noise obs pose poses1 : Depth.Vector) (delta_time : Scalar) :
  (0 < Depth.count_local_models (camera w))%nat ->
  Depth.topRows 6 state1 = Some pose ->
  Depth.topRows 6 state2 = Some pose ->
  Depth.cache_find pose (cache w) = None ->
  Depth.topRows (dimension w) state1 = Some poses1 ->
  fst (Depth.predict_observation state1 noise delta_time w) = Some obs ->
  let w1 := snd (Depth.predict_observation state1 noise delta_time w) in
  Depth.predict_observation state2 noise delta_time w1 = (Some obs, w1)
  /\ Depth.renderer_state (Depth.renderer_ w1) = poses1
  /\ Depth.depth_rendering_ (Depth.this w1)
     = render_image (Depth.scene (Depth.renderer_ w)) poses1.
Proof.
  intros Hcount Hpose1 Hpose2 Hfind Hposes1 Hobs w1.
  destruct (predict_observation_returned _ _ _ _ _ _ Hcount Hpose1 Hobs)
    as (i & key & internal & Hfind1 & Hentry & Hcamera).
  fold w1 in Hfind1, Hentry, Hcamera.
  split.
  - rewrite (predict_observation_hit _ state2 noise pose delta_time i key internal);
      [ | done | exact Hfind1 | exact Hentry ].
    rewrite Hcamera. reflexivity.
  - unfold w1.
    rewrite (predict_observation_miss _ _ _ _ _ _ Hpose1 Hfind Hposes1).
    destruct (Depth.convert_from _ 0 _ state1);
      [destruct (Depth.key_match pose pose)|]; split; reflexivity.
Qed.

End DepthExtras.

Section DepthExtraRuns.
Import Double.
Local Open Scope float_scope.

Lemma convert_layout_witness :
  exists internal : list float,
    Depth.predictions_cache_
      (Depth.this
         (snd (Depth.convert [1; infinity] state_b 0
                 (Depth.with_cache [(take 6 state_b, [])] depth_world))))
    !! 0%nat
    = Some (take 6 state_b, internal)
    /\ internal = [1; 1; 7; 1].
Proof.
  destruct (convert_layout (Depth.with_cache [(take 6 state_b, [])] depth_world)
              [1; infinity] state_b (take 6 state_b) [] 0 eq_refl eq_refl)
    as (internal & Hentry & _).
  exists internal. split; [exact Hentry|].
  vm_compute in Hentry. injection Hentry as <-. reflexivity.
Defined.

Lemma unmatched_pose_renders_every_time_witness :
  let w1 := snd (Depth.predict_observation state_nan noise_a 1 depth_world) in
  let w2 := snd (Depth.predict_observation state_nan noise_a 1 w1) in
  fst (Depth.predict_observation state_nan noise_a 1 depth_world) = None
  /\ Depth.cache_find (take 6 state_nan) (Depth.predictions_cache_ (Depth.this w1))
     = None
  /\ Depth.render_calls (Depth.renderer_ w1) = 1%nat
  /\ Depth.render_calls (Depth.renderer_ w2) = 2%nat.
Proof.
  exact (unmatched_pose_renders_every_time depth_world state_nan noise_a noise_a
           (take 6 state_nan) (take 6 state_nan) 1 1 0 nan
           eq_refl eq_refl eq_refl eq_refl eq_refl (le_S 1 1 (le_n 1))).
Defined.

Lemma predict_observation_returns_witness :
  exists obs internal : list float,
    Depth.predict_observation state_b noise_a 1 depth_world
    = (Some obs,
       Depth.with_cache [(take 6 state_b, internal)]
         (Depth.after_render (take 6 state_b) depth_world))
    /\ length obs = 4%nat /\ length internal = 4%nat.
Proof.
  refine (predict_observation_returns depth_world state_b noise_a 1
            _ eq_refl eq_refl eq_refl _ _); vm_compute; lia.
Defined.

Lemma wide_world_first_call :
  fst (Depth.predict_observation state_p noise_a 1 wide_world)
  = Some [26; 676; 32; 1024].
Proof. vm_compute. reflexivity. Qed.

Lemma cache_key_is_first_six_rows_witness :
  let w1 := snd (Depth.predict_observation state_p noise_a 1 wide_world) in
  Depth.predict_observation state_q noise_a 1 w1 = (Some [26; 676; 32; 1024], w1)
  /\ Depth.renderer_state (Depth.renderer_ w1) = take 7 state_p
  /\ Depth.depth_rendering_ (Depth.this w1) = [1; infinity].
Proof.
  exact (cache_key_is_first_six_rows wide_world state_p state_q noise_a
           [26; 676; 32; 1024] (take 6 state_p) (take 7 state_p) 1
           (le_S 1 1 (le_n 1)) eq_refl eq_refl eq_refl eq_refl
           wide_world_first_call).
Defined.

End DepthExtraRuns.

(** ** Continuous occlusion process model: what a call leaves behind *)

Section OcclusionExtras.
Context {Scalar Generator : Type}.
Context `{Arith Scalar} `{Occlusion Scalar Generator}.

Local Abbreviation Model :=
  (ContinuousOcclusion.ContinuousOcclusionProcessModel (Scalar := Scalar)).

(** X9: the distribution [condition] fixes.  When [condition] returns, the
    truncated Gaussian has the bounds [0] and [1], the standard deviation
    [sigma_ * sqrt(delta_time)] and as mean the sample drawn from [mean_],
    which is not NaN; nothing of the truncated Gaussian of before remains.
    [sigma_] and the two transition probabilities are as before, nothing
    was printed, and exactly the draw of the sample was taken from the
    random source. *)
Theorem condition_sets_truncated_gaussian (m m' : Model)
    (delta_time occlusion : Scalar) (g : Generator) :
  ContinuousOcclusion.outcome (ContinuousOcclusion.condition m delta_time occlusion g)
  = ContinuousOcclusion.Returned m' ->
  let drawn :=
    ContinuousOcclusion.mean_sample
      (ContinuousOcclusion.mean_condition (ContinuousOcclusion.mean_ m)
         delta_time (sigmoid occlusion)) g in
  ContinuousOcclusion.truncated_gaussian_ m'
  = {| ContinuousOcclusion.tg_mean := fst drawn;
       ContinuousOcclusion.tg_sigma :=
         mul (ContinuousOcclusion.sigma_ m) (sqrt delta_time);
       ContinuousOcclusion.tg_min := zero;
       ContinuousOcclusion.tg_max := one |}
  /\ isnan (fst drawn) = false
  /\ ContinuousOcclusion.sigma_ m' = ContinuousOcclusion.sigma_ m
  /\ ContinuousOcclusion.p_occluded_visible (ContinuousOcclusion.mean_ m')
     = ContinuousOcclusion.p_occluded_visible (ContinuousOcclusion.mean_ m)
  /\ ContinuousOcclusion.p_occluded_occluded (ContinuousOcclusion.mean_ m')
     = ContinuousOcclusion.p_occluded_occluded (ContinuousOcclusion.mean_ m)
  /\ ContinuousOcclusion.stdout (ContinuousOcclusion.condition m delta_time occlusion g)
     = []
  /\ ContinuousOcclusion.generator
       (ContinuousOcclusion.condition m delta_time occlusion g)
     = snd drawn.
Proof.
  cbn zeta.
  unfold ContinuousOcclusion.condition, ContinuousOcclusion.State.
  destruct (isnan occlusion); [discriminate|].
  destruct (ContinuousOcclusion.mean_sample _ g) as [mean g']. cbn [fst snd].
  destruct (isnan mean) eqn:Hmean; [discriminate|].
  cbn. intros [= <-]. cbn. repeat split. 
Qed.

(** X10: the two ways a prediction ends.  [predict_state] either returns,
    and then the occlusion it was given and the one it returns are both
    not NaN and nothing was printed, or it ends the process with status
    [-1] after printing a line that starts with ["error: "]; there is no
    other exit status and no silent exit. *)
Theorem predict_state_ends (m : Model) (delta_time state noise : Scalar)
    (g : Generator) :
  let r := ContinuousOcclusion.predict_state m delta_time state noise g in
  match ContinuousOcclusion.outcome r with
  | ContinuousOcclusion.Returned (m', l) =>
      isnan state = false /\ isnan l = false
      /\ ContinuousOcclusion.stdout r = []
      /\ ContinuousOcclusion.outcome
           (ContinuousOcclusion.condition m delta_time state g)
         = ContinuousOcclusion.Returned m'
  | ContinuousOcclusion.Exited status =>
      status = (-1)%Z
      /\ exists (what : string) (rest : list ContinuousOcclusion.Printed),
           ContinuousOcclusion.stdout r
           = ContinuousOcclusion.Text (String.append "error: " what) :: rest
  end.
Proof.
  cbn zeta.
  unfold ContinuousOcclusion.predict_state, ContinuousOcclusion.condition,
    ContinuousOcclusion.State.
  destruct (isnan state) eqn:Hstate; cbn.
  { split; [reflexivity|]. eexists _, _. reflexivity. }
  destruct (ContinuousOcclusion.mean_sample _ g) as [mean g'].
  destruct (isnan mean) eqn:Hmean; cbn.
  { split; [reflexivity|]. eexists _, _. reflexivity. }
  unfold ContinuousOcclusion.map_standard_normal.
  destruct (isnan (logit _)) eqn:Hl; cbn.
  { split; [reflexivity|]. eexists _, _. reflexivity. }
  repeat split. exact Hl.
Qed.

(** X11: what a prediction returns.  When [predict_state] returns, the
    occlusion it returns is the logit of the truncated Gaussian's map of the
    noise, the truncated Gaussian being the one [condition] has just set
    from the sample drawn; the prediction takes that one draw from the
    random source and no other, [map_standard_normal] drawing none. *)
Theorem predict_state_value (m m' : Model) (delta_time state noise l : Scalar)
    (g : Generator) :
  ContinuousOcclusion.outcome
    (ContinuousOcclusion.predict_state m delta_time state noise g)
  = ContinuousOcclusion.Returned (m', l) ->
  let drawn :=
    ContinuousOcclusion.mean_sample
      (ContinuousOcclusion.mean_condition (ContinuousOcclusion.mean_ m)
         delta_time (sigmoid state)) g in
  l = logit (truncated_map_standard_normal (fst drawn)
               (mul (ContinuousOcclusion.sigma_ m) (sqrt delta_time)) zero one noise)
  /\ ContinuousOcclusion.generator
       (ContinuousOcclusion.predict_state m delta_time state noise g)
     = snd drawn
  /\ ContinuousOcclusion.outcome
       (ContinuousOcclusion.map_standard_normal m' noise (snd drawn))
     = ContinuousOcclusion.Returned l.
Proof.
  cbn zeta.
  unfold ContinuousOcclusion.predict_state, ContinuousOcclusion.condition,
    ContinuousOcclusion.State.
  destruct (isnan state); cbn; [discriminate|].
  destruct (ContinuousOcclusion.mean_sample _ g) as [mean g']. cbn [fst snd].
  destruct (isnan mean); cbn; [discriminate|].
  unfold ContinuousOcclusion.map_standard_normal,
    ContinuousOcclusion.tg_map_standard_normal. cbn.
  destruct (isnan (logit _)) eqn:Hl; cbn; [discriminate|].
  intros [= <- <-]. cbn. rewrite Hl. repeat split.
Qed.

(** X12: a prediction forgets the last one.  The run of [predict_state]
    depends on the model through the two transition probabilities and
    [sigma_] only: the truncated Gaussian and the conditioning of [mean_]
    left by an earlier call are overwritten before they are read. *)
Theorem predict_state_forgets_conditioning (m1 m2 : Model)
    (delta_time state noise : Scalar) (g : Generator) :
  ContinuousOcclusion.sigma_ m1 = ContinuousOcclusion.sigma_ m2 ->
  ContinuousOcclusion.p_occluded_visible (ContinuousOcclusion.mean_ m1)
  = ContinuousOcclusion.p_occluded_visible (ContinuousOcclusion.mean_ m2) ->
  ContinuousOcclusion.p_occluded_occluded (ContinuousOcclusion.mean_ m1)
  = ContinuousOcclusion.p_occluded_occluded (ContinuousOcclusion.mean_ m2) ->
  ContinuousOcclusion.predict_state m1 delta_time state noise g
  = ContinuousOcclusion.predict_state m2 delta_time state noise g.
Proof.
  intros Hsigma Hvisible Hoccluded.
  unfold ContinuousOcclusion.predict_state, ContinuousOcclusion.condition,
    ContinuousOcclusion.State, ContinuousOcclusion.mean_condition.
  rewrite Hsigma, Hvisible, Hoccluded. reflexivity.
Qed.

End OcclusionExtras.

Section OcclusionExtraRuns.
Import Double.
Local Open Scope float_scope.

Lemma condition_sets_truncated_gaussian_witness :
  exists m' : ContinuousOcclusion.ContinuousOcclusionProcessModel,
    ContinuousOcclusion.outcome (ContinuousOcclusion.condition occlusion_model 4 0 draws)
    = ContinuousOcclusion.Returned m'
    /\ ContinuousOcclusion.truncated_gaussian_ m'
       = {| ContinuousOcclusion.tg_mean := 0.5;
            ContinuousOcclusion.tg_sigma := 0.25;
            ContinuousOcclusion.tg_min := 0;
            ContinuousOcclusion.tg_max := 1 |}.
Proof.
  destruct (ContinuousOcclusion.outcome
              (ContinuousOcclusion.condition occlusion_model 4 0 draws))
    as [m'|status] eqn:Hrun.
  2: { vm_compute in Hrun. discriminate Hrun. }
  exists m'. split; [reflexivity|].
  exact (proj1 (condition_sets_truncated_gaussian occlusion_model m' 4 0 draws Hrun)).
Defined.

Lemma predict_state_value_witness :
  exists (m' : ContinuousOcclusion.ContinuousOcclusionProcessModel) (l : float),
    ContinuousOcclusion.outcome
      (ContinuousOcclusion.predict_state occlusion_model 4 0 0 draws)
    = ContinuousOcclusion.Returned (m', l)
    /\ ContinuousOcclusion.generator
         (ContinuousOcclusion.predict_state occlusion_model 4 0 0 draws)
       = draws.
Proof.
  destruct (ContinuousOcclusion.outcome
              (ContinuousOcclusion.predict_state occlusion_model 4 0 0 draws))
    as [[m' l]|status] eqn:Hrun.
  2: { vm_compute in Hrun. discriminate Hrun. }
  exists m', l. split; [reflexivity|].
  exact (proj1 (proj2 (predict_state_value occlusion_model m' 4 0 0 l draws Hrun))).
Defined.

Lemma predict_state_forgets_conditioning_witness :
  ContinuousOcclusion.predict_state occlusion_model 4 0 0 draws
  = ContinuousOcclusion.predict_state
      (ContinuousOcclusion.new 0.25 0.75 0.125 9
         {| ContinuousOcclusion.tg_mean := 5; ContinuousOcclusion.tg_sigma := 2;
            ContinuousOcclusion.tg_min := 0; ContinuousOcclusion.tg_max := 1 |})
      4 0 0 draws.
Proof.
  exact (predict_state_forgets_conditioning occlusion_model _ 4 0 0 draws
           eq_refl eq_refl eq_refl).
Defined.

End OcclusionExtraRuns.

(** ** Brownian object motion model: bounds, frame and independence *)

Section BrownianExtras.
Context {Scalar Matrix33 Matrix43 Process Moment : Type}.
Context `{Arith Scalar} `{Geometry Scalar Matrix33 Matrix43}
        `{Integrator Scalar Process Moment}.

Local Abbreviation Model :=
  (Brownian.BrownianObjectMotionModel
     (Scalar := Scalar) (Matrix43 := Matrix43) (Process := Process)).
Local Abbreviation Body := (Brownian.Body (Scalar := Scalar)).

Lemma middleRows3_is_Some (start : nat) (v : list Scalar) :
  is_Some (Brownian.middleRows3 start v) <-> (start + 3 <= length v)%nat.
Proof.
  unfold Brownian.middleRows3. split.
  - destruct (v !! start) as [a|] eqn:Ha; cbn; [|intros [? [=]]].
    destruct (v !! (start + 1)%nat) as [b|] eqn:Hb; cbn; [|intros [? [=]]].
    destruct (v !! (start + 2)%nat) as [c|] eqn:Hc; cbn; [|intros [? [=]]].
    apply lookup_lt_Some in Hc. lia.
  - intros Hle.
    destruct (lookup_lt_is_Some_2 v start ltac:(lia)) as [a ->].
    destruct (lookup_lt_is_Some_2 v (start + 1)%nat ltac:(lia)) as [b ->].
    destruct (lookup_lt_is_Some_2 v (start + 2)%nat ltac:(lia)) as [c ->].
    cbn. eauto.
Qed.

Lemma loop_total {A : Type} (P : nat -> A -> Prop) (body : nat -> A -> option A)
    (count start : nat) (a : A) :
  P start a ->
  (forall i x, (start <= i < start + count)%nat -> P i x ->
               exists x', body i x = Some x' /\ P (S i) x') ->
  is_Some (Brownian.loop body count start a).
Proof.
  revert start a. induction count as [|count IH]; intros start a Ha Hstep; cbn.
  - eauto.
  - destruct (Hstep start a ltac:(lia) Ha) as (x' & -> & Hx'). cbn.
    apply (IH (S start) x' Hx'). intros i x Hi. apply Hstep. lia.
Qed.

Lemma condition_keeps (m m' : Model) (delta_time : Scalar)
    (state : Brownian.State) (control : list Scalar) :
  Brownian.condition m delta_time state control = Some m' ->
  Brownian.rotation_center_ m' = Brownian.rotation_center_ m
  /\ length (Brownian.state_ m') = length state
  /\ length (Brownian.quaternion_map_ m') = length (Brownian.quaternion_map_ m)
  /\ length (Brownian.linear_process_ m') = length (Brownian.linear_process_ m)
  /\ length (Brownian.angular_process_ m') = length (Brownian.angular_process_ m)
  /\ (forall j : nat, (length state <= j)%nat ->
        Brownian.quaternion_map_ m' !! j = Brownian.quaternion_map_ m !! j
        /\ Brownian.linear_process_ m' !! j = Brownian.linear_process_ m !! j
        /\ Brownian.angular_process_ m' !! j = Brownian.angular_process_ m !! j).
Proof.
  intros Hcondition. unfold Brownian.condition in Hcondition.
  pose (P := fun (k : nat) (mk : Model) =>
    Brownian.rotation_center_ mk = Brownian.rotation_center_ m
    /\ length (Brownian.state_ mk) = length state
    /\ length (Brownian.quaternion_map_ mk) = length (Brownian.quaternion_map_ m)
    /\ length (Brownian.linear_process_ mk) = length (Brownian.linear_process_ m)
    /\ length (Brownian.angular_process_ mk) = length (Brownian.angular_process_ m)
    /\ (forall j : nat, (k <= j)%nat ->
          Brownian.quaternion_map_ mk !! j = Brownian.quaternion_map_ m !! j
          /\ Brownian.linear_process_ mk !! j = Brownian.linear_process_ m !! j
          /\ Brownian.angular_process_ mk !! j = Brownian.angular_process_ m !! j)).
  change (P (0 + length state)%nat m').
  eapply (loop_invariant P); [ | | exact Hcondition ].
  { repeat split; done. }
  intros k mk mk' _ HPk. unfold P in HPk |- *.
  destruct HPk as (Hc & Hn & Hq & Hl & Ha & Hge).
  unfold Brownian.condition_body.
  destruct (Brownian.state_ mk !! k); cbn; [|done].
  destruct (Brownian.quaternion_map_ mk !! k); cbn; [|done].
  destruct (Brownian.rotation_center_ mk !! k); cbn; [|done].
  destruct (Brownian.linear_process_ mk !! k); cbn; [|done].
  destruct (Brownian.middleRows3 (k * Brownian.DIMENSION_PER_OBJECT) control);
    cbn; [|done].
  destruct (Brownian.angular_process_ mk !! k); cbn; [|done].
  destruct (Brownian.middleRows3 (k * Brownian.DIMENSION_PER_OBJECT + 3) control);
    cbn; [|done].
  intros [= <-]. cbn. unfold Brownian.State in *.
  rewrite !length_insert. repeat split; try done.
  all: rewrite list_lookup_insert_ne by lia; apply Hge; lia.
Qed.

(** X13: what [condition] leaves alone.  When it returns, the rotation
    centers are as before, no vector of the model has changed its size, the
    copy of the state has the body count of the state handed in, the
    quaternion maps and integrators of the bodies beyond that count are
    untouched, and of each body of the copy only position and linear
    velocity may differ from the state handed in. *)
Theorem condition_frame (m m' : Model) (delta_time : Scalar)
    (state : Brownian.State) (control : list Scalar) :
  Brownian.condition m delta_time state control = Some m' ->
  Brownian.rotation_center_ m' = Brownian.rotation_center_ m
  /\ length (Brownian.state_ m') = length state
  /\ length (Brownian.quaternion_map_ m') = length (Brownian.quaternion_map_ m)
  /\ length (Brownian.linear_process_ m') = length (Brownian.linear_process_ m)
  /\ length (Brownian.angular_process_ m') = length (Brownian.angular_process_ m)
  /\ (forall j : nat, (length state <= j)%nat ->
        Brownian.quaternion_map_ m' !! j = Brownian.quaternion_map_ m !! j
        /\ Brownian.linear_process_ m' !! j = Brownian.linear_process_ m !! j
        /\ Brownian.angular_process_ m' !! j = Brownian.angular_process_ m !! j)
  /\ (forall (i : nat) (b : Body),
        state !! i = Some b ->
        exists b' : Body,
          Brownian.state_ m' !! i = Some b'
          /\ Brownian.orientation b' = Brownian.orientation b
          /\ Brownian.angular_velocity b' = Brownian.angular_velocity b).
Proof.
  intros Hcondition.
  destruct (condition_keeps _ _ _ _ _ Hcondition) as (Hc & Hn & Hq & Hl & Ha & Hge).
  repeat split; try done; try (apply Hge; done).
  intros i b Hb.
  destruct (condition_lookup _ _ _ _ _ _ _ Hcondition Hb)
    as ((c & l & a & lu & au & _ & _ & _ & _ & _ & Hs' & _) & _).
  exists (Brownian.internal c b). split; [exact Hs'|]. split; reflexivity.
Qed.

Lemma condition_is_Some (m : Model) (delta_time : Scalar)
    (state : Brownian.State) (control : list Scalar) :
  is_Some (Brownian.condition m delta_time state control)
  <-> (length state <= length (Brownian.quaternion_map_ m))%nat
      /\ (length state <= length (Brownian.rotation_center_ m))%nat
      /\ (length state <= length (Brownian.linear_process_ m))%nat
      /\ (length state <= length (Brownian.angular_process_ m))%nat
      /\ (state = [] \/ (6 * length state <= length control)%nat).
Proof.
  split.
  - intros [m' Hcondition].
    destruct (condition_keeps _ _ _ _ _ Hcondition) as (_ & _ & Hq & _).
    destruct state as [|b0 state _] using rev_ind.
    { cbn. repeat split; lia. }
    assert (Hlast : (state ++ [b0]) !! length state = Some b0)
      by (apply list_lookup_middle; reflexivity).
    destruct (condition_lookup _ _ _ _ _ _ _ Hcondition Hlast)
      as ((c & l & a & lu & au & Hc & Hl & Ha & _ & Hau & _ & HQ & _) & _).
    apply lookup_lt_Some in Hc, Hl, Ha, HQ.
    assert (Hau' : is_Some (Brownian.middleRows3
                              (length state * Brownian.DIMENSION_PER_OBJECT + 3) control))
      by (rewrite Hau; eauto).
    apply middleRows3_is_Some in Hau'. unfold Brownian.DIMENSION_PER_OBJECT in Hau'.
    rewrite length_app. cbn. repeat split; lia.
  - intros (Hq & Hc & Hl & Ha & Hcontrol). unfold Brownian.condition.
    apply (loop_total (fun _ mk =>
             length (Brownian.state_ mk) = length state
             /\ length (Brownian.quaternion_map_ mk) = length (Brownian.quaternion_map_ m)
             /\ length (Brownian.rotation_center_ mk) = length (Brownian.rotation_center_ m)
             /\ length (Brownian.linear_process_ mk) = length (Brownian.linear_process_ m)
             /\ length (Brownian.angular_process_ mk)
                = length (Brownian.angular_process_ m))).
    { repeat split; done. }
    intros k mk Hk (Hn' & Hq' & Hc' & Hl' & Ha').
    assert (Hcontrol' : (6 * length state <= length control)%nat).
    { destruct Hcontrol as [->|?]; [cbn in Hk; lia|done]. }
    unfold Brownian.condition_body.
    destruct (lookup_lt_is_Some_2 (Brownian.state_ mk) k ltac:(lia)) as [b Hb].
    destruct (lookup_lt_is_Some_2 (Brownian.quaternion_map_ mk) k ltac:(lia))
      as [Q HQ].
    destruct (lookup_lt_is_Some_2 (Brownian.rotation_center_ mk) k ltac:(lia))
      as [c Hck].
    destruct (lookup_lt_is_Some_2 (Brownian.linear_process_ mk) k ltac:(lia))
      as [l Hlk].
    destruct (lookup_lt_is_Some_2 (Brownian.angular_process_ mk) k ltac:(lia))
      as [a Hak].
    destruct (proj2 (middleRows3_is_Some (k * Brownian.DIMENSION_PER_OBJECT) control))
      as [lu Hlu]; [unfold Brownian.DIMENSION_PER_OBJECT; lia|].
    destruct (proj2 (middleRows3_is_Some (k * Brownian.DIMENSION_PER_OBJECT + 3) control))
      as [au Hau]; [unfold Brownian.DIMENSION_PER_OBJECT; lia|].
    unfold Brownian.State in *.
    rewrite Hb; cbn. rewrite HQ; cbn. rewrite Hck; cbn. rewrite Hlk; cbn.
    rewrite Hlu; cbn. rewrite Hak; cbn. rewrite Hau; cbn.
    eexists. split; [reflexivity|]. cbn. rewrite !length_insert. repeat split; done.
Qed.

Lemma map_standard_normal_is_Some (fresh : Body) (m : Model) (sample : list Scalar) :
  is_Some (Brownian.map_standard_normal fresh m sample)
  <-> (length (Brownian.state_ m) <= length (Brownian.quaternion_map_ m))%nat
      /\ (length (Brownian.state_ m) <= length (Brownian.rotation_center_ m))%nat
      /\ (length (Brownian.state_ m) <= length (Brownian.linear_process_ m))%nat
      /\ (length (Brownian.state_ m) <= length (Brownian.angular_process_ m))%nat
      /\ (Brownian.state_ m = []
          \/ (6 * length (Brownian.state_ m) <= length sample)%nat).
Proof.
  split.
  - intros [new_state Hmap].
    destruct (Brownian.state_ m) as [|b0 state _] eqn:Hstate using rev_ind.
    { cbn. repeat split; lia. }
    assert (Hlast : Brownian.state_ m !! length state = Some b0).
    { rewrite Hstate. apply list_lookup_middle. reflexivity. }
    destruct (map_standard_normal_lookup _ _ _ _ _ _ Hmap Hlast)
      as (pn & on & l & a & Q & c & _ & Hon & Hl & Ha & HQ & Hc & _).
    apply lookup_lt_Some in Hc, Hl, Ha, HQ.
    assert (Hon' : is_Some (Brownian.middleRows3
                              (length state * Brownian.DIMENSION_PER_OBJECT + 3) sample))
      by (rewrite Hon; eauto).
    apply middleRows3_is_Some in Hon'. unfold Brownian.DIMENSION_PER_OBJECT in Hon'.
    rewrite length_app. cbn. repeat split; lia.
  - intros (Hq & Hc & Hl & Ha & Hsample). unfold Brownian.map_standard_normal.
    apply (loop_total (fun _ ns => length ns = length (Brownian.state_ m))).
    { apply length_replicate. }
    intros k ns Hk Hn.
    assert (Hsample' : (6 * length (Brownian.state_ m) <= length sample)%nat).
    { destruct Hsample as [Hnil|?]; [rewrite Hnil in Hk; cbn in Hk; lia|done]. }
    unfold Brownian.map_body.
    destruct (proj2 (middleRows3_is_Some (k * Brownian.DIMENSION_PER_OBJECT) sample))
      as [pn Hpn]; [unfold Brownian.DIMENSION_PER_OBJECT; lia|].
    destruct (proj2 (middleRows3_is_Some (k * Brownian.DIMENSION_PER_OBJECT + 3) sample))
      as [on Hon]; [unfold Brownian.DIMENSION_PER_OBJECT; lia|].
    destruct (lookup_lt_is_Some_2 (Brownian.linear_process_ m) k ltac:(lia))
      as [l Hlk].
    destruct (lookup_lt_is_Some_2 (Brownian.angular_process_ m) k ltac:(lia))
      as [a Hak].
    destruct (lookup_lt_is_Some_2 ns k ltac:(lia)) as [old Hold].
    destruct (lookup_lt_is_Some_2 (Brownian.state_ m) k ltac:(lia)) as [b Hb].
    destruct (lookup_lt_is_Some_2 (Brownian.quaternion_map_ m) k ltac:(lia))
      as [Q HQ].
    destruct (lookup_lt_is_Some_2 (Brownian.rotation_center_ m) k ltac:(lia))
      as [c Hck].
    unfold Brownian.State in *.
    rewrite Hpn; cbn. rewrite Hon; cbn. rewrite Hlk; cbn. rewrite Hak; cbn.
    rewrite Hold; cbn. rewrite Hb; cbn. rewrite HQ; cbn. rewrite Hck; cbn.
    eexists. split; [reflexivity|]. rewrite length_insert. exact Hn.
Qed.

Lemma map_standard_normal_length (fresh : Body) (m : Model) (sample : list Scalar)
    (new_state : Brownian.State) :
  Brownian.map_standard_normal fresh m sample = Some new_state ->
  length new_state = length (Brownian.state_ m).
Proof.
  unfold Brownian.map_standard_normal. intros Hmap.
  apply (loop_invariant (fun _ ns => length ns = length (Brownian.state_ m))
           _ _ _ _ _ (length_replicate _ _)) in Hmap; [exact Hmap|].
  intros k ns0 ns' _ Hlen. unfold Brownian.map_body.
  repeat (match goal with
          | |- context [?o ≫= _] =>
              match o with
              | _ ≫= _ => fail 1
              | _ => destruct o; cbn; [|done]
              end
          end).
  intros [= <-]. unfold Brownian.State in *. rewrite length_insert. exact Hlen.
Qed.

(** X14: the sizes [predict_state] needs.  The call stays inside its
    vectors exactly when the model has a quaternion map, a rotation center
    and two integrators for every body of the state and, unless the state
    has no body, control and noise have six rows per body.  A state with
    more bodies than the model was sized for is out of bounds; a state with
    no body is always fine. *)
Theorem predict_state_bounds (fresh : Body) (m : Model) (delta_time : Scalar)
    (state : Brownian.State) (noise input : list Scalar) :
  is_Some (Brownian.predict_state fresh m delta_time state noise input)
  <-> (length state <= length (Brownian.quaternion_map_ m))%nat
      /\ (length state <= length (Brownian.rotation_center_ m))%nat
      /\ (length state <= length (Brownian.linear_process_ m))%nat
      /\ (length state <= length (Brownian.angular_process_ m))%nat
      /\ (state = []
          \/ (6 * length state <= length input)%nat
             /\ (6 * length state <= length noise)%nat).
Proof.
  unfold Brownian.predict_state. split.
  - destruct (Brownian.condition m delta_time state input) as [m'|] eqn:Hcondition;
      cbn; [|intros [? [=]]].
    destruct (Brownian.map_standard_normal fresh m' noise) as [ns|] eqn:Hmap;
      cbn; [|intros [? [=]]].
    intros _.
    assert (Hc : is_Some (Brownian.condition m delta_time state input))
      by (rewrite Hcondition; eauto).
    assert (Hm : is_Some (Brownian.map_standard_normal fresh m' noise))
      by (rewrite Hmap; eauto).
    apply condition_is_Some in Hc. apply map_standard_normal_is_Some in Hm.
    destruct (condition_keeps _ _ _ _ _ Hcondition) as (_ & Hn & _).
    destruct Hc as (? & ? & ? & ? & Hinput).
    destruct Hm as (_ & _ & _ & _ & Hnoise).
    repeat split; try done.
    destruct state as [|b state]; [left; reflexivity|right].
    destruct Hinput as [[=]|Hinput].
    destruct Hnoise as [Hnil|Hnoise].
    { rewrite Hnil in Hn. discriminate Hn. }
    rewrite Hn in Hnoise. split; done.
  - intros (Hq & Hc & Hl & Ha & Hrows).
    destruct (proj2 (condition_is_Some m delta_time state input)) as [m' Hcondition].
    { repeat split; try done. destruct Hrows as [?|[? _]]; auto. }
    rewrite Hcondition. cbn.
    destruct (condition_keeps _ _ _ _ _ Hcondition)
      as (Hc' & Hn & Hq' & Hl' & Ha' & _).
    destruct (proj2 (map_standard_normal_is_Some fresh m' noise)) as [ns Hmap].
    { rewrite Hn, Hc', Hq', Hl', Ha'. repeat split; try done.
      destruct Hrows as [->|[_ ?]]; [left|right; done].
      destruct (Brownian.state_ m'); [reflexivity|discriminate Hn]. }
    rewrite Hmap. cbn. eauto.
Qed.

(** X15: a prediction keeps the body count.  The state [predict_state]
    returns and the copy the model keeps both have as many bodies as the
    state handed in. *)
Theorem predict_state_body_count (fresh : Body) (m m' : Model) (delta_time : Scalar)
    (state new_state : Brownian.State) (noise input : list Scalar) :
  Brownian.predict_state fresh m delta_time state noise input = Some (m', new_state) ->
  length new_state = length state
  /\ length (Brownian.state_ m') = length state.
Proof.
  unfold Brownian.predict_state. intros Hpredict.
  destruct (Brownian.condition m delta_time state input) as [mc|] eqn:Hcondition;
    cbn in Hpredict; [|done].
  destruct (Brownian.map_standard_normal fresh mc noise) as [ns|] eqn:Hmap;
    cbn in Hpredict; [|done].
  injection Hpredict as <- <-.
  destruct (condition_keeps _ _ _ _ _ Hcondition) as (_ & Hn & _).
  split; [|exact Hn]. rewrite <- Hn.
  exact (map_standard_normal_length _ _ _ _ Hmap).
Qed.

(** X16: the bodies do not influence one another.  The body a prediction
    returns at index [i] is determined by body [i] of the state, rows
    [6 i] to [6 i + 5] of control and noise, and the model: two predictions
    from the same model that agree on these return the same body [i],
    whatever the other bodies and rows are, and however many there are. *)
Theorem bodies_are_independent (fresh1 fresh2 : Body) (m m1 m2 : Model)
    (delta_time : Scalar) (state1 state2 new_state1 new_state2 : Brownian.State)
    (noise1 noise2 input1 input2 : list Scalar) (i : nat) (b : Body) :
  Brownian.predict_state fresh1 m delta_time state1 noise1 input1
  = Some (m1, new_state1) ->
  Brownian.predict_state fresh2 m delta_time state2 noise2 input2
  = Some (m2, new_state2) ->
  state1 !! i = Some b -> state2 !! i = Some b ->
  Brownian.middleRows3 (i * Brownian.DIMENSION_PER_OBJECT) noise1
  = Brownian.middleRows3 (i * Brownian.DIMENSION_PER_OBJECT) noise2 ->
  Brownian.middleRows3 (i * Brownian.DIMENSION_PER_OBJECT + 3) noise1
  = Brownian.middleRows3 (i * Brownian.DIMENSION_PER_OBJECT + 3) noise2 ->
  Brownian.middleRows3 (i * Brownian.DIMENSION_PER_OBJECT) input1
  = Brownian.middleRows3 (i * Brownian.DIMENSION_PER_OBJECT) input2 ->
  Brownian.middleRows3 (i * Brownian.DIMENSION_PER_OBJECT + 3) input1
  = Brownian.middleRows3 (i * Brownian.DIMENSION_PER_OBJECT + 3) input2 ->
  new_state1 !! i = new_state2 !! i
  /\ Brownian.state_ m1 !! i = Brownian.state_ m2 !! i.
Proof.
  intros Hp1 Hp2 Hb1 Hb2 Hpn Hon Hlu Hau.
  destruct (predict_state_lookup _ _ _ _ _ _ _ _ _ _ Hp1 Hb1)
    as (c & l & a & lu & au & pn & on
        & Hc & Hl & Ha & Hlu1 & Hau1 & Hpn1 & Hon1 & Hs1 & Hnew1).
  destruct (predict_state_lookup _ _ _ _ _ _ _ _ _ _ Hp2 Hb2)
    as (c' & l' & a' & lu' & au' & pn' & on'
        & Hc' & Hl' & Ha' & Hlu2 & Hau2 & Hpn2 & Hon2 & Hs2 & Hnew2).
  assert (c' = c) as -> by congruence.
  assert (l' = l) as -> by congruence.
  assert (a' = a) as -> by congruence.
  assert (lu' = lu) as -> by congruence.
  assert (au' = au) as -> by congruence.
  assert (pn' = pn) as -> by congruence.
  assert (on' = on) as -> by congruence.
  rewrite Hnew1, Hnew2, Hs1, Hs2. split; reflexivity.
Qed.

(** X17: [parameters] reaches one body.  After [parameters] for body [j]
    a prediction returns every other body as it would have without the
    call; body [j] is predicted about the new rotation center, by the two
    integrators as their own [parameters] left them. *)
Theorem parameters_reach_one_body (fresh : Body) (m mp m1 m2 : Model)
    (object_index : nat) (rotation_center : Vector3 Scalar) (damping : Scalar)
    (linear_acceleration_covariance angular_acceleration_covariance : Moment)
    (delta_time : Scalar) (state new_state1 new_state2 : Brownian.State)
    (noise input : list Scalar) :
  Brownian.parameters m object_index rotation_center damping
    linear_acceleration_covariance angular_acceleration_covariance = Some mp ->
  Brownian.predict_state fresh m delta_time state noise input
  = Some (m1, new_state1) ->
  Brownian.predict_state fresh mp delta_time state noise input
  = Some (m2, new_state2) ->
  (forall i : nat, i <> object_index -> new_state2 !! i = new_state1 !! i)
  /\ (forall b : Body,
        state !! object_index = Some b ->
        exists linear angular linear_control angular_control
               position_noise orientation_noise,
          Brownian.linear_process_ m !! object_index = Some linear
          /\ Brownian.angular_process_ m !! object_index = Some angular
          /\ Brownian.middleRows3 (object_index * Brownian.DIMENSION_PER_OBJECT) input
             = Some linear_control
          /\ Brownian.middleRows3 (object_index * Brownian.DIMENSION_PER_OBJECT + 3) input
             = Some angular_control
          /\ Brownian.middleRows3 (object_index * Brownian.DIMENSION_PER_OBJECT) noise
             = Some position_noise
          /\ Brownian.middleRows3 (object_index * Brownian.DIMENSION_PER_OBJECT + 3) noise
             = Some orientation_noise
          /\ new_state2 !! object_index
             = Some (Brownian.external rotation_center
                       (quaternion_matrix (Brownian.orientation b))
                       (process_condition
                          (process_parameters linear damping
                             linear_acceleration_covariance)
                          delta_time
                          (Brownian.zero3,
                           Brownian.internal_linear_velocity rotation_center b)
                          linear_control)
                       (process_condition
                          (process_parameters angular damping
                             angular_acceleration_covariance)
                          delta_time
                          (Brownian.zero3, Brownian.angular_velocity b)
                          angular_control)
                       position_noise orientation_noise
                       (Brownian.internal rotation_center b))).
Proof.
  intros Hparameters Hp1 Hp2. unfold Brownian.parameters in Hparameters.
  destruct (Brownian.rotation_center_ m !! object_index) as [c0|] eqn:Hc0;
    cbn in Hparameters; [|done].
  destruct (Brownian.linear_process_ m !! object_index) as [l0|] eqn:Hl0;
    cbn in Hparameters; [|done].
  destruct (Brownian.angular_process_ m !! object_index) as [a0|] eqn:Ha0;
    cbn in Hparameters; [|done].
  injection Hparameters as <-. split.
  - intros i Hi. destruct (state !! i) as [b|] eqn:Hb.
    + destruct (predict_state_lookup _ _ _ _ _ _ _ _ _ _ Hp1 Hb)
        as (c & l & a & lu & au & pn & on
            & Hc & Hl & Ha & Hlu & Hau & Hpn & Hon & _ & Hnew1).
      destruct (predict_state_lookup _ _ _ _ _ _ _ _ _ _ Hp2 Hb)
        as (c' & l' & a' & lu' & au' & pn' & on'
            & Hc' & Hl' & Ha' & Hlu' & Hau' & Hpn' & Hon' & _ & Hnew2).
      cbn in Hc', Hl', Ha'.
      rewrite list_lookup_insert_ne in Hc' by done.
      rewrite list_lookup_insert_ne in Hl' by done.
      rewrite list_lookup_insert_ne in Ha' by done.
      assert (c' = c) as -> by congruence.
      assert (l' = l) as -> by congruence.
      assert (a' = a) as -> by congruence.
      assert (lu' = lu) as -> by congruence.
      assert (au' = au) as -> by congruence.
      assert (pn' = pn) as -> by congruence.
      assert (on' = on) as -> by congruence.
      rewrite Hnew1, Hnew2. reflexivity.
    + apply lookup_ge_None in Hb.
      assert (Hlength : forall (mx mx' : Model) (ns : Brownian.State),
                Brownian.predict_state fresh mx delta_time state noise input
                = Some (mx', ns) ->
                length ns = length state).
      { intros mx mx' ns. unfold Brownian.predict_state. intros Hp.
        destruct (Brownian.condition mx delta_time state input) as [mc|] eqn:Hcondition;
          cbn in Hp; [|done].
        destruct (Brownian.map_standard_normal fresh mc noise) as [ns'|] eqn:Hmap;
          cbn in Hp; [|done].
        injection Hp as <- <-.
        rewrite (map_standard_normal_length _ _ _ _ Hmap).
        apply (condition_keeps _ _ _ _ _ Hcondition). }
      apply Hlength in Hp1, Hp2. unfold Brownian.State in *.
      rewrite (proj2 (lookup_ge_None new_state1 i)) by lia.
      rewrite (proj2 (lookup_ge_None new_state2 i)) by lia.
      reflexivity.
  - intros b Hb.
    destruct (predict_state_lookup _ _ _ _ _ _ _ _ _ _ Hp2 Hb)
      as (c' & l' & a' & lu' & au' & pn' & on'
          & Hc' & Hl' & Ha' & Hlu' & Hau' & Hpn' & Hon' & _ & Hnew2).
    cbn in Hc', Hl', Ha'.
    rewrite list_lookup_insert_eq in Hc' by (apply lookup_lt_Some in Hc0; done).
    rewrite list_lookup_insert_eq in Hl' by (apply lookup_lt_Some in Hl0; done).
    rewrite list_lookup_insert_eq in Ha' by (apply lookup_lt_Some in Ha0; done).
    injection Hc' as <-. injection Hl' as <-. injection Ha' as <-.
    exists l0, a0, lu', au', pn', on'. repeat split; done.
Qed.

(** X18: a model as the constructor leaves it.  A model constructed for
    [count_objects] bodies can be conditioned on exactly the states of at
    most that many bodies (with six rows of control per body), and before
    any [condition] its [map_standard_normal] returns [count_objects]
    bodies, from six rows of noise each: the constructor sizes [state_]
    together with the four vectors. *)
Theorem constructed_model_bounds (count_objects : nat) (fresh fresh0 : Body)
    (Q0 : Matrix43) (c0 : Vector3 Scalar) (P0 : Process) (delta_time : Scalar)
    (state : Brownian.State) (control sample : list Scalar) :
  (is_Some (Brownian.condition (Brownian.new count_objects fresh0 Q0 c0 P0)
              delta_time state control)
   <-> (length state <= count_objects)%nat
       /\ (state = [] \/ (6 * length state <= length control)%nat))
  /\ (is_Some (Brownian.map_standard_normal fresh
                 (Brownian.new count_objects fresh0 Q0 c0 P0) sample)
      <-> count_objects = 0%nat \/ (6 * count_objects <= length sample)%nat)
  /\ (forall new_state : Brownian.State,
        Brownian.map_standard_normal fresh
          (Brownian.new count_objects fresh0 Q0 c0 P0) sample = Some new_state ->
        length new_state = count_objects).
Proof.
  split; [|split].
  - rewrite condition_is_Some. cbn. rewrite !length_replicate. tauto.
  - rewrite map_standard_normal_is_Some. cbn. rewrite !length_replicate.
    split.
    + intros (_ & _ & _ & _ & [Hnil|Hrows]); [left|right; exact Hrows].
      destruct count_objects; [reflexivity|discriminate Hnil].
    + intros Hrows. repeat split; try done.
      destruct Hrows as [->|Hrows]; [left; reflexivity|right; exact Hrows].
  - intros new_state Hmap. apply map_standard_normal_length in Hmap.
    cbn in Hmap. rewrite length_replicate in Hmap. exact Hmap.
Qed.

(** X19: rotation ignores translation.  The orientation and the angular
    velocity a prediction returns for body [i] are made from the body's
    orientation and angular velocity, its angular integrator, rows
    [6 i + 3] to [6 i + 5] of control and noise, and nothing else: neither
    the rotation center, nor position and linear velocity, nor the linear
    integrator enter.  The orientation is the output of [normalized]. *)
Theorem predicted_rotation (fresh : Body) (m m' : Model) (delta_time : Scalar)
    (state new_state : Brownian.State) (noise input : list Scalar)
    (i : nat) (b : Body) :
  Brownian.predict_state fresh m delta_time state noise input = Some (m', new_state) ->
  state !! i = Some b ->
  exists (angular : Process) (angular_control orientation_noise : Vector3 Scalar),
    Brownian.angular_process_ m !! i = Some angular
    /\ Brownian.middleRows3 (i * Brownian.DIMENSION_PER_OBJECT + 3) input
       = Some angular_control
    /\ Brownian.middleRows3 (i * Brownian.DIMENSION_PER_OBJECT + 3) noise
       = Some orientation_noise
    /\ Brownian.orientation <$> new_state !! i
       = Some (normalized
                 (Brownian.qadd (Brownian.orientation b)
                    (mul43 (quaternion_matrix (Brownian.orientation b))
                       (fst (process_map_standard_normal
                               (process_condition angular delta_time
                                  (Brownian.zero3, Brownian.angular_velocity b)
                                  angular_control)
                               orientation_noise)))))
    /\ Brownian.angular_velocity <$> new_state !! i
       = Some (snd (process_map_standard_normal
                      (process_condition angular delta_time
                         (Brownian.zero3, Brownian.angular_velocity b)
                         angular_control)
                      orientation_noise)).
Proof.
  intros Hpredict Hb.
  destruct (predict_state_lookup _ _ _ _ _ _ _ _ _ _ Hpredict Hb)
    as (c & l & a & lu & au & pn & on
        & _ & _ & Ha & _ & Hau & _ & Hon & _ & Hnew).
  exists a, au, on. rewrite Hnew. repeat split; done.
Qed.

End BrownianExtras.

Section BrownianExtraRuns.
Import Double.
Local Open Scope float_scope.

Lemma condition_frame_witness :
  (m' ← Brownian.condition two_bodies 1 [moving] zeros6;
   Some (Brownian.rotation_center_ m'))
  = Some (Brownian.rotation_center_ two_bodies).
Proof.
  destruct (Brownian.condition two_bodies 1 [moving] zeros6) as [m'|] eqn:Hcondition.
  2: { vm_compute in Hcondition. discriminate Hcondition. }
  cbn. f_equal.
  exact (proj1 (condition_frame two_bodies m' 1 [moving] zeros6 Hcondition)).
Defined.

Lemma predict_state_body_count_witness :
  (r ← Brownian.predict_state resting two_bodies 1 [moving; spinning] zeros12 zeros12;
   Some (length (snd r)))
  = Some 2%nat.
Proof.
  destruct (Brownian.predict_state resting two_bodies 1 [moving; spinning]
              zeros12 zeros12) as [[m' new_state]|] eqn:Hpredict.
  2: { vm_compute in Hpredict. discriminate Hpredict. }
  cbn. f_equal.
  exact (proj1 (predict_state_body_count resting two_bodies m' 1 [moving; spinning]
                  new_state zeros12 zeros12 Hpredict)).
Defined.

Lemma bodies_are_independent_witness :
  (r ← Brownian.predict_state resting two_bodies 1 [moving] zeros6 zeros6;
   snd r !! 0%nat)
  = (r ← Brownian.predict_state resting two_bodies 1 [moving; spinning]
           zeros12 zeros12;
     snd r !! 0%nat).
Proof.
  destruct (Brownian.predict_state resting two_bodies 1 [moving] zeros6 zeros6)
    as [[m1 new_state1]|] eqn:Hp1.
  2: { vm_compute in Hp1. discriminate Hp1. }
  destruct (Brownian.predict_state resting two_bodies 1 [moving; spinning]
              zeros12 zeros12) as [[m2 new_state2]|] eqn:Hp2.
  2: { vm_compute in Hp2. discriminate Hp2. }
  cbn.
  exact (proj1 (bodies_are_independent resting resting two_bodies m1 m2 1
                  [moving] [moving; spinning] new_state1 new_state2
                  zeros6 zeros12 zeros6 zeros12 0 moving
                  Hp1 Hp2 eq_refl eq_refl eq_refl eq_refl eq_refl eq_refl)).
Defined.

Lemma parameters_reach_one_body_witness :
  (mp ← Brownian.parameters two_bodies 1 (vector3 0 1 0) 0.5 tt tt;
   r ← Brownian.predict_state resting mp 1 [moving; spinning] zeros12 zeros12;
   snd r !! 0%nat)
  = (r ← Brownian.predict_state resting two_bodies 1 [moving; spinning]
           zeros12 zeros12;
     snd r !! 0%nat).
Proof.
  destruct (Brownian.parameters two_bodies 1 (vector3 0 1 0) 0.5 tt tt)
    as [mp|] eqn:Hparameters.
  2: { vm_compute in Hparameters. discriminate Hparameters. }
  cbn -[Brownian.predict_state zeros12].
  destruct (Brownian.predict_state resting mp 1 [moving; spinning] zeros12 zeros12)
    as [[m2 new_state2]|] eqn:Hp2.
  2: { exfalso. pose proof Hparameters as Hmp. vm_compute in Hmp.
       injection Hmp as <-. vm_compute in Hp2. discriminate Hp2. }
  destruct (Brownian.predict_state resting two_bodies 1 [moving; spinning]
              zeros12 zeros12) as [[m1 new_state1]|] eqn:Hp1.
  2: { vm_compute in Hp1. discriminate Hp1. }
  cbn.
  exact (proj1 (parameters_reach_one_body resting two_bodies mp m1 m2 1
                  (vector3 0 1 0) 0.5 tt tt 1 [moving; spinning]
                  new_state1 new_state2 zeros12 zeros12 Hparameters Hp1 Hp2)
               0%nat ltac:(discriminate)).
Defined.

Lemma predicted_rotation_witness :
  (r ← Brownian.predict_state resting motion_model 1 [spinning] zeros6 zeros6;
   Brownian.angular_velocity <$> snd r !! 0%nat)
  = Some (vector3 0 0 1).
Proof.
  destruct (Brownian.predict_state resting motion_model 1 [spinning] zeros6 zeros6)
    as [[m' new_state]|] eqn:Hpredict.
  2: { vm_compute in Hpredict. discriminate Hpredict. }
  cbn.
  destruct (predicted_rotation resting motion_model m' 1 [spinning] new_state
              zeros6 zeros6 0 spinning Hpredict eq_refl)
    as (angular & angular_control & orientation_noise
        & Hangular & Hcontrol & Hnoise & _ & Hvelocity).
  vm_compute in Hangular, Hcontrol, Hnoise.
  injection Hangular as <-. injection Hcontrol as <-. injection Hnoise as <-.
  rewrite Hvelocity. vm_compute. reflexivity.
Defined.

End BrownianExtraRuns.
